(* ===== verification/_CoqProject ===== *)
-Q . S2P
Prelude.v
Tabla.v
GroupBy.v
Filtros.v
Orden.v
Ventas.v
Asesores.v
Clientes.v
Sesion.v
Graficos.v
Pagina.v
Interaccion.v
Carga.v
