(* ===== verification/Prelude.v ===== *)
(** * Verification of the "Caso Data y Estrategia" sales dashboard

    The program is one Streamlit script, [src/dashboard.py].  It loads a
    cleaned sales table (parquet), imposes the calendar order Enero..Mayo on
    the [Mes] column, and renders one of three analysis views chosen in a
    sidebar radio button.  Each view is a pipeline of pandas operations
    (boolean-mask filter, [groupby(...).sum()], [sort_values], [head])
    whose results are handed to plotly express.

    ** Parts of the program and where they are modelled

    - [Prelude.v] (this file): the notation scope [dash_scope], the ordered
      key interface [KeyOrder] (a typeclass: the order pandas sorts group
      keys and Python's [sorted] sorts strings by), its instances for
      [string] (byte-wise, which is code-point order on UTF-8), [nat]
      (category codes) and pairs (lexicographic, as a MultiIndex sorts),
      the hint database [dash] and the generic list lemmas shared below.
    - [Tabla.v]: the data model.  A float64 column cell is [numero]
      ([Num z] or [NaN]); a row of the parquet file is a [registro] whose
      [mes] field is a string before normalisation and a categorical code
      afterwards; [columna] is [row[c]] over the schema [esquema_df].
      [categorizar]/[normalizar] model [pd.Categorical(df['Mes'],
      categories=meses, ordered=True)] (dashboard.py 32-38); [sum_skipna]
      models pandas' NaN-skipping [sum].
    - [GroupBy.v]: [df.groupby(keys, as_index=False)[col].sum()] with
      pandas' defaults [sort=True, dropna=True]: the accumulating
      implementation [groupby_sum] (one pass over the rows into a sorted
      association list) and the reference [groupby_sum_ref] (distinct sorted
      keys, then one filtered sum per key); and [groupby_sum_cat], the
      [observed=False] re-indexing pandas performs when the first key is
      categorical (cartesian product of all categories with the observed
      levels of the second key, empty groups summing to 0).
    - [Filtros.v]: the boolean masks of lines 58, 74, 107 and 121
      ([isin], [==] against a possibly empty selectbox, [>= 0] on a float
      column) and [sorted(col.unique())] of lines 56, 71, 72.
    - [Orden.v]: [sort_values('Monto de Venta', ascending=False).head(10)]
      of lines 86-90.
    - [Ventas.v], [Asesores.v], [Clientes.v]: the three views (lines 55-81,
      84-115, 118-137), each a function from the normalised table (and, for
      view 1, the widget values [entradas_ventas]) to a record of the
      tables it hands to plotly and to its widgets ([analisis_ventas],
      [analisis_asesores], [analisis_clientes]).
    - [Sesion.v]: one run of the script ([ejecutar]: the [@st.cache_data]
      memo [load_data], [normalizar], the sidebar [radio] and the if/elif
      chain [despachar]) and the Streamlit session between runs: the
      widget state and the memo as a record [sesion], a user interaction as
      an [evento], and [paso_sesion], the step relation of one interaction
      followed by one rerun.  The widget state follows Streamlit's keyed
      semantics: a selectbox's index is stored with the options it was
      drawn with and read back only while the options are the same
      ([indice_guardado]), and a run drops the state of the widgets it
      does not draw ([tras_ejecucion]).
    - [Graficos.v]: the seven [px] calls (lines 63-136) as [grafico]
      records of the columns they reference, over the column list of the
      frame each receives ([esquema_df], [esquema_groupby]), with the
      colour palettes of lines 47-52 and the other keyword arguments
      ([opcion]: line_close, template, markers, orientation, title) and
      [fig1.update_traces] of line 96 ([update_traces]).
    - [Pagina.v]: the page a run draws.  Every Streamlit call of the
      script (set_page_config, title, markdown with the CSS [page_bg],
      sidebar title and radio, multiselect, subheaders, columns,
      selectboxes, plotly_chart) is an [elemento] appended to the page, in
      the order the script calls it: [ejecutar_pagina] is the whole script
      (lines 11-137) in a writer monad [pagina_m] whose value is what
      [Sesion.ejecutar] computes and whose log is the page.
    - [Interaccion.v]: what a user can do on the page drawn ([permitido]:
      pick a radio option, options of the multiselect, an index of a
      selectbox's options) and the pairs (session, page shown) reached by
      the first run and such interactions ([alcanzable_ui]).
    - [Carga.v]: the runs that raise.  The file is [Ilegible] or a
      [Parquet] table with its column list; [load_data_e] memoises only a
      successful read; the views ([pagina_*_e]) make their column accesses
      ([acceder]: pandas KeyError) and plotly calls ([px]: ValueError for
      a column the frame lacks, and for a negative or NaN marker size,
      plotly's [marker.size] validator) where the script makes them; [ejecutar_e] is the whole script in the
      monad [ejec] of elements drawn plus exception or result.

    Data flows file -> [load_data] -> [normalizar] -> [despachar] -> view.
    The views share nothing but the table; each view is built from the
    generic operations of [GroupBy], [Filtros] and [Orden], which are
    stated against the [KeyOrder] interface and instantiated at [string],
    [nat] and pairs.

    ** What the theorems show (claims C1..C26 of PROJECT.json)

    - Group-by (GroupBy.v, C1-C3, C17): the one-pass implementation
      equals the reference (equivalence); a (key, sum) row is in the
      result iff some row carries the key and the sum is the NaN-skipping
      sum of its group (functional); the keys are strictly increasing
      (invariant, so one row per key, in order); the sums of all groups
      add up to the sum of all rows with a key (conservation).  The proofs
      rest on the loop invariant [fold_paso_invariante] of the sorted
      accumulator and the extensionality of sorted association lists
      [ordenada_ext].
    - Filters (Filtros.v, C4): the [>= 0] mask keeps exactly the rows with a
      finite non-negative amount (so it also drops NaN amounts).
    - View 1 (Ventas.v, C5-C8, C15): the radar table's rows and sums; the
      line table lists every month for every product ([observed=False]),
      in calendar order; deselecting every zone gives empty tables and the
      title [None - None] instead of an error; the default multiselect
      filters nothing.
    - View 2 (Asesores.v, C9-C10): [df_top] has [min 10 n] rows, sorted
      descending, each an advisor with its exact total, and every advisor
      left out sold at most as much as every advisor kept.
    - View 3 (Clientes.v, C11): both charts sized by the amount receive only
      valid (finite, non-negative) sizes.
    - Session (Sesion.v, C12-C13): the radio index selects exactly one
      view; the memo is never invalidated, so every later run renders
      the first loaded table, even after the file changed.
    - Table (Tabla.v, C14, C18): categorical codes are the positions in
      [meses] (round trip) and labels outside [meses] get no code;
      normalisation keeps every row and column and yields codes below 5
      or NaN.
    - Charts (Graficos.v, C16): no [px] call names a column its frame
      lacks.
    - Page (Pagina.v, C19-C21): set_page_config is the first call and the
      only one; the charts drawn are those of the chosen view, in order;
      no two widgets share an identity.
    - Interaction (Interaccion.v, C22): on every page a user reaches, the
      zone selectbox offers exactly the zones selected in the multiselect.
    - Errors (Carga.v, C23-C26): an unreadable file stops the run after
      the page header with LoadError and is not memoised, so the next run
      retries; once loaded, a run raises exactly when a column its view
      reads is missing or, in view 3, a '% Clientes Nuevos' value is
      negative or NaN; a missing column leaves a partial page above the
      KeyError; and such a size value makes view 3 stop with ValueError
      after its first chart, because line 133 sizes the unfiltered table
      by that column (a defect of the script).
    No termination theorem is stated: the script has no loop, every
    function of the model is structurally recursive, so the kernel's guard
    checker already proves that each run ends; a fuel-bounded interpreter
    of the script would only restate that.

    ** Modelling choices

    Amounts are exact integers ([Z]) instead of IEEE doubles, so float
    rounding in [sum] is not modelled; the groupby equivalence relies on
    the commutativity of exact addition.  String cells are never null
    (the file is the cleaned dataset).  The sort in [sort_values] is any
    correct descending sort (stdpp's [merge_sort]): numpy's default
    quicksort is not stable, so ties are placed in an unspecified order,
    and no theorem depends on tie order.  [groupby] on a categorical key
    follows pandas before 3.0 ([observed=False] by default).  A selectbox
    returns [options[index]] and a radio likewise; a selectbox whose
    options change is a new widget and starts at index 0.  No fuel is needed: every function
    is structurally recursive, and the session is a relation, not a loop.

    ** Not modelled

    The bytes of the parquet file and the decoding by pyarrow: the file is
    its content ([archivo]: unreadable, or a table with its columns), and
    column types are those of [Tabla]; how the browser lays out and styles the elements of
    [Pagina], and how plotly draws a figure and assigns the palette's
    colours to values, are external.  The figures carry their encodings,
    not their data: the data of each chart is the view's table in
    [salida].  The spinner [st.cache_data] shows while [load_data] runs is
    transient and not an element of the page.  [@st.cache_data] hands each
    run a copy of the memoised frame, so the assignment to [df['Mes']]
    never alters the memo: the memo holds the raw table and every run
    normalises it again.  Every part of [src/dashboard.py] is modelled;
    what remains outside is pandas', plotly's and Streamlit's own code,
    specified here only by the behaviour the script relies on. *)

From Stdlib Require Export String ZArith Lia.
From stdpp Require Export base list sorting sets.
From Stdlib Require Import OrdersEx.

Declare Scope dash_scope.
Delimit Scope dash_scope with dash.
Open Scope dash_scope.

Create HintDb dash discriminated.
Create Rewrite HintDb dash_rw.

(** ** Ordered keys

    The interface between the group-by component and the column types it
    groups by: a total order given as a three-way comparison. *)

Class KeyOrder (K : Type) := {
  kcmp : K -> K -> comparison;
  kcmp_antisym : forall a b, kcmp a b = CompOpp (kcmp b a);
  kcmp_eq : forall a b, kcmp a b = Eq <-> a = b;
  kcmp_lt_trans : forall a b c, kcmp a b = Lt -> kcmp b c = Lt -> kcmp a c = Lt
}.

Notation "a <k b" := (kcmp a b = Lt) (at level 70) : dash_scope.

Section KeyOrderFacts.
Context {K : Type} `{KeyOrder K}.

Lemma kcmp_refl a : kcmp a a = Eq.
Proof. by apply kcmp_eq. Qed.

Lemma klt_irrefl a : ~ (a <k a).
Proof. by rewrite kcmp_refl. Qed.

Lemma klt_trans a b c : a <k b -> b <k c -> a <k c.
Proof. apply kcmp_lt_trans. Qed.

Lemma kcmp_Gt a b : kcmp a b = Gt <-> b <k a.
Proof. rewrite kcmp_antisym. destruct (kcmp b a); simpl; intuition congruence. Qed.

Lemma klt_ne a b : a <k b -> a <> b.
Proof. intros Hlt ->. by apply (klt_irrefl b). Qed.

Lemma klt_asym a b : a <k b -> ~ (b <k a).
Proof. intros Hab Hba. apply (klt_irrefl a). by apply (klt_trans _ b). Qed.

(** Trichotomy, in the form a [destruct] can use. *)
Lemma kcmp_spec a b : CompareSpec (a = b) (a <k b) (b <k a) (kcmp a b).
Proof.
  destruct (kcmp a b) eqn:E; constructor; auto.
  - by apply kcmp_eq.
  - by apply kcmp_Gt.
Qed.

#[global] Instance key_eq_dec : EqDecision K.
Proof.
  intros a b. destruct (kcmp a b) eqn:E.
  - left. by apply kcmp_eq.
  - right. intros ->. by rewrite kcmp_refl in E.
  - right. intros ->. by rewrite kcmp_refl in E.
Defined.

(** Weak order, used for sorting. *)
Definition kle (a b : K) : Prop := kcmp a b <> Gt.

#[global] Instance kle_dec : RelDecision kle.
Proof. intros a b. unfold kle. destruct (kcmp a b); [left|left|right]; congruence. Defined.

#[global] Instance kle_total : Total kle.
Proof.
  intros a b. unfold kle. rewrite (kcmp_antisym b a).
  destruct (kcmp a b); simpl; [left|left|right]; congruence.
Qed.

#[global] Instance kle_trans : Transitive kle.
Proof.
  intros a b c. unfold kle. rewrite !kcmp_Gt. intros Hab Hbc Hca.
  destruct (kcmp_spec a b) as [<-|Hlt|Hlt]; [done| |done].
  apply Hbc. by apply (klt_trans _ a).
Qed.

Lemma kle_lt_or_eq a b : kle a b -> a <k b \/ a = b.
Proof. unfold kle. destruct (kcmp_spec a b); auto. congruence. Qed.
End KeyOrderFacts.

#[export] Hint Resolve klt_trans klt_irrefl klt_ne : dash.
#[export] Hint Rewrite @kcmp_refl : dash_rw.

(** Strings are compared byte by byte, which on UTF-8 text is the
    code-point order Python's [sorted] and pandas use for [str]. *)
Lemma string_compare_OT (a b : string) :
  String.compare a b = OrdersEx.String_as_OT.compare a b.
Proof. revert b. induction a; destruct b; simpl; try reflexivity. Qed.

#[export] Program Instance string_key : KeyOrder string := {
  kcmp := String.compare
}.
Next Obligation. apply String.compare_antisym. Qed.
Next Obligation.
  intros a b. split; [apply String.compare_eq_iff|].
  intros ->. rewrite string_compare_OT.
  destruct (OrdersEx.String_as_OT.compare_spec b b) as [|Hb|Hb]; [done|..];
    exfalso; by apply (StrictOrder_Irreflexive (R:=OrdersEx.String_as_OT.lt) b).
Qed.
Next Obligation.
  intros a b c. rewrite !string_compare_OT. apply OrdersEx.String_as_OT.lt_strorder.
Qed.

#[export] Program Instance nat_key : KeyOrder nat := { kcmp := Nat.compare }.
Next Obligation. intros a b. apply Nat.compare_antisym. Qed.
Next Obligation. intros a b. apply Nat.compare_eq_iff. Qed.
Next Obligation. intros a b c. rewrite !Nat.compare_lt_iff. lia. Qed.

(** A MultiIndex of two keys sorts lexicographically. *)
Definition kcmp_prod {A B} `{KeyOrder A} `{KeyOrder B} (x y : A * B) : comparison :=
  match kcmp x.1 y.1 with
  | Eq => kcmp x.2 y.2
  | c => c
  end.

#[export] Program Instance prod_key {A B} `{KeyOrder A} `{KeyOrder B} : KeyOrder (A * B) := {
  kcmp := kcmp_prod
}.
Next Obligation.
  intros A B ? ? [a1 b1] [a2 b2]. unfold kcmp_prod; simpl.
  rewrite (kcmp_antisym a1 a2), (kcmp_antisym b1 b2). by destruct (kcmp a2 a1).
Qed.
Next Obligation.
  intros A B ? ? [a1 b1] [a2 b2]. unfold kcmp_prod; simpl. split.
  - destruct (kcmp_spec a1 a2) as [->| |]; [|congruence..].
    intros E. apply kcmp_eq in E. by subst.
  - intros [= -> ->]. by rewrite !kcmp_refl.
Qed.
Next Obligation.
  intros A B ? ? [a1 b1] [a2 b2] [a3 b3]. unfold kcmp_prod; simpl.
  destruct (kcmp_spec a1 a2) as [->|H12|]; destruct (kcmp_spec a2 a3) as [->|H23|];
    intros E12 E23; try congruence; rewrite ?kcmp_refl.
  - by apply (klt_trans _ b2).
  - by rewrite H12.
  - by rewrite (klt_trans a1 a2 a3).
Qed.

(** ** Shared list lemmas *)

Lemma filter_app_bool {A} (p : A -> bool) (l1 l2 : list A) :
  List.filter p (l1 ++ l2) = List.filter p l1 ++ List.filter p l2.
Proof. apply List.filter_app. Qed.

Lemma elem_of_filter_bool {A} (p : A -> bool) (l : list A) x :
  x ∈ List.filter p l <-> x ∈ l /\ p x = true.
Proof. rewrite !list_elem_of_In. apply filter_In. Qed.

Lemma elem_of_map_bool {A B} (f : A -> B) (l : list A) y :
  y ∈ map f l <-> exists x, y = f x /\ x ∈ l.
Proof.
  rewrite list_elem_of_In, in_map_iff. setoid_rewrite list_elem_of_In. naive_solver.
Qed.

#[export] Hint Rewrite @filter_app_bool @elem_of_filter_bool : dash_rw.

(** A second mask implied by the first one changes nothing. *)
Lemma filter_filter_implied {A} (p q : A -> bool) (l : list A) :
  (forall x, p x = true -> q x = true) ->
  List.filter p (List.filter q l) = List.filter p l.
Proof.
  intros Hpq. induction l as [|x l IH]; simpl; [done|].
  destruct (q x) eqn:Hq; simpl; rewrite ?IH; [done|].
  destruct (p x) eqn:Hp; [|done]. apply Hpq in Hp. congruence.
Qed.

(** Two masks that agree on every row select the same rows. *)
Lemma filter_ext_bool {A} (p q : A -> bool) (l : list A) :
  (forall x, p x = q x) -> List.filter p l = List.filter q l.
Proof. intros Hpq. induction l as [|x l IH]; simpl; [done|]. by rewrite Hpq, IH. Qed.

Lemma seq_strict (a n : nat) : StronglySorted (fun x y => x <k y) (seq a n).
Proof.
  revert a. induction n as [|n IH]; intros a; simpl; constructor; [done|].
  apply Forall_forall. intros x Hx%list_elem_of_In%in_seq. simpl. apply Nat.compare_lt_iff. lia.
Qed.

Lemma filter_filter_and {A} (p q : A -> bool) (l : list A) :
  List.filter p (List.filter q l) = List.filter (fun x => q x && p x) l.
Proof.
  induction l as [|x l IH]; [done|]. cbn [List.filter].
  destruct (q x); cbn [List.filter andb]; [destruct (p x)|]; by rewrite IH.
Qed.

(** Two masks are equal when they hold of the same rows. *)
Lemma bool_eq_iff (b1 b2 : bool) : (b1 = true <-> b2 = true) -> b1 = b2.
Proof. destruct b1, b2; naive_solver. Qed.

Lemma filter_all_bool {A} (p : A -> bool) (l : list A) :
  (forall x, x ∈ l -> p x = true) -> List.filter p l = l.
Proof.
  induction l as [|x l IH]; intros Hp; simpl; [done|].
  rewrite Hp by by left. f_equal. apply IH. intros y Hy. apply Hp. by right.
Qed.

(** Two masks built from [&&] and [bool_decide] are equal when they hold of
    the same rows: reduce the goal to that equivalence. *)
Ltac mascara_iff :=
  apply bool_eq_iff; rewrite ?andb_true_iff, ?bool_decide_eq_true.
