(* ===== verification/Tabla.v ===== *)
(** * The sales table and the categorical [Mes] column

    A row of [Data/cleaned.parquet] is a [registro]; its [mes] field is a
    plain string as loaded and a categorical code once [normalizar] has
    run (dashboard.py 32-38).  Float columns hold [numero] cells, where
    [NaN] stands for a missing value, and pandas' [sum] skips NaN
    ([sum_skipna]). *)

From S2P Require Import Prelude.

(** A float64 cell: a finite (exact) value or NaN. *)
Inductive numero : Type :=
| Num (z : Z)
| NaN.

#[export] Instance numero_eq_dec : EqDecision numero.
Proof. solve_decision. Defined.

(** The contribution of a cell to a NaN-skipping sum. *)
Definition valor_skipna (x : numero) : Z :=
  match x with
  | Num z => z
  | NaN => 0%Z
  end.

(** [Series.sum()] with [skipna=True, min_count=0]: NaN cells are
    skipped and an empty (or all-NaN) series sums to 0. *)
Definition sum_skipna (xs : list numero) : Z :=
  fold_right (fun x acc => (valor_skipna x + acc)%Z) 0%Z xs.

(** One row of the dataset; [M] is the type of the [Mes] column. *)
Record registro (M : Type) := mkRegistro {
  zona : string;                 (* 'Zona' *)
  canal : string;                (* 'Canal' *)
  mes : M;                       (* 'Mes' *)
  producto : string;             (* 'Producto' *)
  asesor : string;               (* 'Asesor' *)
  monto : numero;                (* 'Monto de Venta' *)
  capacitado : string;           (* '¿Capacitado?' *)
  antiguedad : numero;           (* 'Antigüedad del Asesor (meses)' *)
  cumplimiento : numero;         (* '% Cumplimiento Objetivo' *)
  inversion : numero;            (* 'Inversión en Publicidad' *)
  clientes_nuevos : numero;      (* '% Clientes Nuevos' *)
  participacion : string;        (* 'Participación en Campañas' *)
  edad : numero                  (* 'Edad del Cliente' *)
}.
Arguments mkRegistro {M}.
Arguments zona {M}. Arguments canal {M}. Arguments mes {M}.
Arguments producto {M}. Arguments asesor {M}. Arguments monto {M}.
Arguments capacitado {M}. Arguments antiguedad {M}. Arguments cumplimiento {M}.
Arguments inversion {M}. Arguments clientes_nuevos {M}.
Arguments participacion {M}. Arguments edad {M}.

(** The table as loaded ([load_data()]) and after line 34. *)
Abbreviation tabla_cruda := (list (registro string)).
Abbreviation tabla := (list (registro (option nat))).

(** [meses = ['Enero', 'Febrero', 'Marzo', 'Abril', 'Mayo']] *)
Definition meses : list string := ["Enero"; "Febrero"; "Marzo"; "Abril"; "Mayo"]%string.

(** The code pandas gives a value under [categories=cats]: the position of
    the value in [cats], or no code ([NaN], code -1) when it is absent. *)
Fixpoint categorizar (cats : list string) (s : string) : option nat :=
  match cats with
  | [] => None
  | c :: cs => if String.eqb c s then Some 0 else S <$> categorizar cs s
  end.

(** Replace the [Mes] column of a row. *)
Definition con_mes {M N} (m : N) (r : registro M) : registro N :=
  mkRegistro (zona r) (canal r) m (producto r) (asesor r) (monto r)
    (capacitado r) (antiguedad r) (cumplimiento r) (inversion r)
    (clientes_nuevos r) (participacion r) (edad r).

(** [df['Mes'] = pd.Categorical(df['Mes'], categories=meses, ordered=True)] *)
Definition normalizar (df : tabla_cruda) : tabla :=
  map (fun r => con_mes (categorizar meses (mes r)) r) df.

(** The schema of [Data/cleaned.parquet], which is not in the repository:
    the thirteen attributes spec section 3 lists, under the column names
    the script uses for them. *)
Definition esquema_df : list string :=
  ["Zona"; "Canal"; "Mes"; "Producto"; "Asesor"; "Monto de Venta"; "¿Capacitado?";
   "Antigüedad del Asesor (meses)"; "% Cumplimiento Objetivo"; "Inversión en Publicidad";
   "% Clientes Nuevos"; "Participación en Campañas"; "Edad del Cliente"]%string.

(** A cell of the normalised table. *)
Inductive celda : Type :=
| CTexto (s : string)
| CNumero (x : numero)
| CCategoria (c : option nat).

(** [row[c]]: the cell of column [c]; [None] is pandas' KeyError. *)
Definition columna (c : string) (r : registro (option nat)) : option celda :=
  if String.eqb c "Zona" then Some (CTexto (zona r))
  else if String.eqb c "Canal" then Some (CTexto (canal r))
  else if String.eqb c "Mes" then Some (CCategoria (mes r))
  else if String.eqb c "Producto" then Some (CTexto (producto r))
  else if String.eqb c "Asesor" then Some (CTexto (asesor r))
  else if String.eqb c "Monto de Venta" then Some (CNumero (monto r))
  else if String.eqb c "¿Capacitado?" then Some (CTexto (capacitado r))
  else if String.eqb c "Antigüedad del Asesor (meses)" then Some (CNumero (antiguedad r))
  else if String.eqb c "% Cumplimiento Objetivo" then Some (CNumero (cumplimiento r))
  else if String.eqb c "Inversión en Publicidad" then Some (CNumero (inversion r))
  else if String.eqb c "% Clientes Nuevos" then Some (CNumero (clientes_nuevos r))
  else if String.eqb c "Participación en Campañas" then Some (CTexto (participacion r))
  else if String.eqb c "Edad del Cliente" then Some (CNumero (edad r))
  else None.

(** ** Lemmas *)

Lemma sum_skipna_app xs ys : sum_skipna (xs ++ ys) = (sum_skipna xs + sum_skipna ys)%Z.
Proof. induction xs; simpl; lia. Qed.

Lemma sum_skipna_nonneg xs :
  Forall (fun x => (0 <= valor_skipna x)%Z) xs -> (0 <= sum_skipna xs)%Z.
Proof. induction 1; simpl; lia. Qed.

#[export] Hint Rewrite sum_skipna_app : dash_rw.

Lemma categorizar_lookup cats s i :
  categorizar cats s = Some i -> cats !! i = Some s.
Proof.
  revert i. induction cats as [|c cs IH]; intros i; simpl; [done|].
  destruct (String.eqb_spec c s) as [->|]; [by intros [= <-]|].
  destruct (categorizar cs s) as [j|] eqn:E; simpl; [|done].
  intros [= <-]. by apply IH.
Qed.

Lemma categorizar_None cats s : categorizar cats s = None <-> s ∉ cats.
Proof.
  induction cats as [|c cs IH]; simpl.
  - split; [intros _; apply not_elem_of_nil|done].
  - rewrite not_elem_of_cons. destruct (String.eqb_spec c s) as [->|Hne].
    + split; [done|]. intros [? _]. done.
    + rewrite <- IH. destruct (categorizar cs s); simpl; naive_solver.
Qed.

Lemma categorizar_NoDup cats s i :
  NoDup cats -> cats !! i = Some s -> categorizar cats s = Some i.
Proof.
  intros Hnd Hi. destruct (categorizar cats s) as [j|] eqn:E.
  - apply categorizar_lookup in E. f_equal. by eapply NoDup_lookup.
  - apply categorizar_None in E. destruct E. by eapply list_elem_of_lookup_2.
Qed.

(** ** Properties *)

(** C14.  The categorical [Mes] column: a label gets code [i] iff it is
    the [i]-th month of [meses], so codes follow the calendar order
    Enero < Febrero < Marzo < Abril < Mayo; a label outside [meses] gets no
    code (NaN) and the row is kept with a missing month. *)
Theorem categorizar_meses_spec s i :
  (categorizar meses s = Some i <-> meses !! i = Some s) /\
  (categorizar meses s = None <-> s ∉ meses).
Proof.
  split; [|apply categorizar_None].
  split; [apply categorizar_lookup|]. apply categorizar_NoDup.
  apply (bool_decide_eq_true_1 _). vm_compute. reflexivity.
Qed.

(** C18.  Type of the normalised table: [normalizar] changes no column but
    [Mes], keeps every row, and every [Mes] cell becomes either a valid
    category code (below the number of months) or NaN. *)
Theorem normalizar_tipo (df : tabla_cruda) :
  map (con_mes tt) (normalizar df) = map (con_mes tt) df /\
  Forall (fun r => from_option (fun i => i < length meses) True (mes r)) (normalizar df).
Proof.
  split.
  - unfold normalizar. rewrite map_map. apply map_ext. reflexivity.
  - apply Forall_forall. unfold normalizar. intros r (r0 & -> & _)%elem_of_map_bool. unfold con_mes; cbn [mes].
    destruct (categorizar meses (mes r0)) as [i|] eqn:Hc; cbn [from_option]; [|done].
    apply categorizar_lookup in Hc. by eapply lookup_lt_Some.
Qed.

