(* ===== verification/GroupBy.v ===== *)
(** * [DataFrame.groupby(keys)[col].sum()]

    pandas groups with [sort=True] (groups come out in increasing key
    order) and [dropna=True] (rows whose key is NaN belong to no group),
    and sums each group with NaN-skipping [sum].  [groupby_sum] is the
    one-pass implementation: every row is added into a strictly sorted
    association list ([acumular]).  [groupby_sum_ref] is the reference:
    the distinct keys in sorted order ([unicos_ordenados], which is also
    [sorted(col.unique())]), each with the sum of its group ([total]).
    [groupby_sum_cat] adds the [observed=False] re-indexing pandas applies
    when the first key is categorical.  Section [Conservacion] adds up the
    sums of all groups ([suma_columna]) against the sum of all rows. *)

From S2P Require Import Prelude Tabla.

(** Option union with addition: how two partial sums of a key combine. *)
Definition agregar (o1 o2 : option Z) : option Z :=
  match o1, o2 with
  | Some a, Some b => Some (a + b)%Z
  | Some a, None => Some a
  | None, o => o
  end.

Section Claves.
Context {K : Type} `{KeyOrder K}.

(** [sorted(xs.unique())]: distinct values, increasing. *)
Definition unicos_ordenados (ks : list K) : list K :=
  merge_sort kle (remove_dups ks).

(** An association list whose keys are strictly increasing. *)
Definition ordenada {V} (g : list (K * V)) : Prop :=
  StronglySorted (fun a b => a <k b) (map fst g).

Fixpoint buscar {V} (k : K) (g : list (K * V)) : option V :=
  match g with
  | [] => None
  | (k', s) :: g' => if decide (k = k') then Some s else buscar k g'
  end.

(** Add [v] to the sum of key [k], keeping the keys sorted. *)
Fixpoint acumular (k : K) (v : Z) (g : list (K * Z)) : list (K * Z) :=
  match g with
  | [] => [(k, v)]
  | (k', s) :: g' =>
      match kcmp k k' with
      | Lt => (k, v) :: g
      | Eq => (k', s + v)%Z :: g'
      | Gt => (k', s) :: acumular k v g'
      end
  end.
End Claves.

Section GroupBy.
Context {R K : Type} `{KeyOrder K}.
Variable clave : R -> option K.
Variable valor : R -> numero.

Definition paso (g : list (K * Z)) (r : R) : list (K * Z) :=
  match clave r with
  | Some k => acumular k (valor_skipna (valor r)) g
  | None => g
  end.

(** [df.groupby(clave)[valor].sum()] *)
Definition groupby_sum (df : list R) : list (K * Z) :=
  fold_left paso df [].

(** The non-NaN keys of the rows, in row order. *)
Definition claves (df : list R) : list K := omap clave df.

Definition grupo (k : K) (df : list R) : list R :=
  List.filter (fun r => bool_decide (clave r = Some k)) df.

Definition total (k : K) (df : list R) : Z :=
  sum_skipna (map valor (grupo k df)).

Definition groupby_sum_ref (df : list R) : list (K * Z) :=
  map (fun k => (k, total k df)) (unicos_ordenados (claves df)).

(** What the result says about key [k]: its total when it occurs. *)
Definition total_opt (k : K) (df : list R) : option Z :=
  if bool_decide (k ∈ claves df) then Some (total k df) else None.

(** The contribution of one row to the sum of key [k]. *)
Definition aporte (k : K) (r : R) : option Z :=
  match clave r with
  | Some k0 => if decide (k = k0) then Some (valor_skipna (valor r)) else None
  | None => None
  end.
End GroupBy.

(** [observed=False] (the pandas default before 3.0): when the first key
    is categorical, the result is re-indexed on the product of all its
    categories with the observed levels of the second key, and the groups
    that do not occur get the sum of an empty group, 0. *)
Section Categorica.
Context {R K1 K2 : Type} `{KeyOrder K1} `{KeyOrder K2}.
Variable cats : list K1.
Variables (clave1 : R -> option K1) (clave2 : R -> option K2) (valor : R -> numero).

(** A row belongs to the group of a pair only when neither key is NaN. *)
Definition clave_par (r : R) : option (K1 * K2) :=
  match clave1 r, clave2 r with
  | Some a, Some b => Some (a, b)
  | _, _ => None
  end.

Definition groupby_sum_cat (df : list R) : list ((K1 * K2) * Z) :=
  let g := groupby_sum clave_par valor df in
  map (fun k => (k, from_option id 0%Z (buscar k g)))
      (list_prod cats (unicos_ordenados (claves clave2 df))).
End Categorica.

(** The total of the value column of a grouped table ([df_g[col].sum()]). *)
Definition suma_columna {K} (g : list (K * Z)) : Z :=
  fold_right (fun p acc => (p.2 + acc)%Z) 0%Z g.

(** ** Association lists *)

Lemma agregar_assoc a b c : agregar a (agregar b c) = agregar (agregar a b) c.
Proof. destruct a, b, c; simpl; f_equal; lia. Qed.

Lemma agregar_None_r a : agregar a None = a.
Proof. by destruct a. Qed.

#[export] Hint Rewrite agregar_None_r : dash_rw.

Section Listas.
Context {K : Type} `{KeyOrder K}.
Implicit Types (k : K).

Lemma ordenada_cons {V} k (s : V) (g : list (K * V)) :
  ordenada ((k, s) :: g) <-> Forall (fun k' => k <k k') (map fst g) /\ ordenada g.
Proof. unfold ordenada; simpl. split; [by inversion 1|intros []; by constructor]. Qed.

Lemma buscar_None {V} k (g : list (K * V)) : buscar k g = None <-> k ∉ map fst g.
Proof.
  induction g as [|[k' s] g IH]; simpl; [split; [intros _; apply not_elem_of_nil|done]|].
  rewrite not_elem_of_cons. case_decide; naive_solver.
Qed.

Lemma buscar_Some {V} k (s : V) (g : list (K * V)) : buscar k g = Some s -> (k, s) ∈ g.
Proof.
  induction g as [|[k' s'] g IH]; simpl; [done|].
  case_decide; [intros [= <-]; subst; by left|]. intros ?%IH. by right.
Qed.

Lemma ordenada_buscar_elem {V} k (s : V) (g : list (K * V)) :
  ordenada g -> (k, s) ∈ g -> buscar k g = Some s.
Proof.
  induction g as [|[k' s'] g IH]; simpl; [by intros _ ?%elem_of_nil|].
  intros [Hf Ho]%ordenada_cons [[= -> ->]|Hin]%elem_of_cons; case_decide; try done.
  - subst. exfalso. rewrite Forall_forall in Hf.
    apply (klt_irrefl k'), Hf, elem_of_map_bool. by exists (k', s).
  - by apply IH.
Qed.

(** Membership in a sorted association list is a lookup. *)
Lemma ordenada_elem_iff {V} k (s : V) (g : list (K * V)) :
  ordenada g -> (k, s) ∈ g <-> buscar k g = Some s.
Proof. intros Ho. split; [by apply ordenada_buscar_elem|apply buscar_Some]. Qed.

Lemma acumular_claves k v (g : list (K * Z)) k' :
  k' ∈ map fst (acumular k v g) <-> k' = k \/ k' ∈ map fst g.
Proof.
  induction g as [|[k0 s] g IH]; simpl.
  - rewrite list_elem_of_singleton. split; [by left|]. by intros [|?%not_elem_of_nil].
  - destruct (kcmp_spec k k0) as [<-| |]; simpl; rewrite ?elem_of_cons; try naive_solver.
Qed.

Lemma acumular_ordenada k v (g : list (K * Z)) : ordenada g -> ordenada (acumular k v g).
Proof.
  induction g as [|[k0 s] g IH]; simpl.
  - intros _. apply ordenada_cons. split; [constructor|repeat constructor].
  - intros Hg. pose proof Hg as [Hf Ho]%ordenada_cons.
    destruct (kcmp_spec k k0) as [<-|Hlt|Hgt]; apply ordenada_cons; split; auto.
    + constructor; [done|]. eapply Forall_impl; [done|]. eauto with dash.
    + apply Forall_forall. intros x Hx%acumular_claves.
      destruct Hx as [->|Hx]; [done|]. by eapply Forall_forall in Hf.
Qed.

Lemma buscar_acumular k v (g : list (K * Z)) k' :
  ordenada g ->
  buscar k' (acumular k v g) = agregar (buscar k' g) (if decide (k' = k) then Some v else None).
Proof.
  induction g as [|[k0 s] g IH]; simpl; intros Hg.
  - by repeat case_decide.
  - pose proof Hg as [Hf Ho]%ordenada_cons.
    destruct (kcmp_spec k k0) as [<-|Hlt|Hgt]; simpl.
    + repeat case_decide; simpl; by rewrite ?agregar_None_r.
    + assert (buscar k g = None) as Hn.
      { apply buscar_None. intros Hin. eapply Forall_forall in Hf; [|done].
        by apply (klt_asym k k0). }
      repeat case_decide; subst; simpl; rewrite ?Hn, ?agregar_None_r; try done.
      exfalso. by apply (klt_irrefl k0).
    + destruct (decide (k' = k0)) as [->|Hne]; [|by apply IH].
      rewrite decide_False; [done|]. intros ->. by apply (klt_irrefl k).
Qed.

(** Two strictly sorted association lists with the same lookups are equal. *)
Lemma ordenada_ext {V} (g1 g2 : list (K * V)) :
  ordenada g1 -> ordenada g2 -> (forall k, buscar k g1 = buscar k g2) -> g1 = g2.
Proof.
  revert g2. induction g1 as [|[k1 s1] g1 IH]; intros [|[k2 s2] g2] H1 H2 Hb.
  - done.
  - specialize (Hb k2). simpl in Hb. by rewrite decide_True in Hb.
  - specialize (Hb k1). simpl in Hb. by rewrite decide_True in Hb.
  - apply ordenada_cons in H1 as [Hf1 Ho1]. apply ordenada_cons in H2 as [Hf2 Ho2].
    assert (Hout : forall k k' (s : V) g, Forall (fun x => k' <k x) (map fst g) ->
                   k <k k' -> buscar k ((k', s) :: g) = None).
    { intros k k' s g Hf Hlt. simpl. rewrite decide_False by (by apply klt_ne).
      apply buscar_None. intros Hin. eapply Forall_forall in Hf; [|done].
      by apply (klt_asym k k'). }
    destruct (kcmp_spec k1 k2) as [<-|Hlt|Hlt].
    + pose proof (Hb k1) as Hk. simpl in Hk. rewrite !decide_True in Hk by done.
      injection Hk as ->. f_equal. apply IH; [done..|]. intros k.
      specialize (Hb k). simpl in Hb. case_decide; [subst|done].
      rewrite !(proj2 (buscar_None _ _)); [done| |];
        intros Hin; [eapply Forall_forall in Hf2|eapply Forall_forall in Hf1];
        eauto; by eapply klt_irrefl.
    + specialize (Hb k1). rewrite (Hout k1 k2 s2 g2) in Hb by done.
      simpl in Hb. by rewrite decide_True in Hb.
    + specialize (Hb k2). rewrite (Hout k2 k1 s1 g1) in Hb by done.
      simpl in Hb. by rewrite decide_True in Hb.
Qed.
End Listas.

(** ** Sorted distinct keys *)

Section Unicos.
Context {K : Type} `{KeyOrder K}.

Lemma elem_of_unicos_ordenados (ks : list K) k : k ∈ unicos_ordenados ks <-> k ∈ ks.
Proof. unfold unicos_ordenados. by rewrite (merge_sort_Permutation kle), elem_of_remove_dups. Qed.

Lemma strict_of_NoDup (l : list K) :
  StronglySorted kle l -> NoDup l -> StronglySorted (fun a b => a <k b) l.
Proof.
  induction 1 as [|a l _ IH Hf]; intros Hnd; [constructor|].
  apply NoDup_cons in Hnd as [Hna Hnd]. constructor; [by apply IH|].
  apply Forall_forall. intros b Hb. eapply Forall_forall in Hf; [|done].
  destruct (kle_lt_or_eq a b Hf) as [| ->]; [done|]. by destruct Hna.
Qed.

(** [sorted(set(ks))] is strictly increasing. *)
Lemma unicos_ordenados_strict (ks : list K) :
  StronglySorted (fun a b => a <k b) (unicos_ordenados ks).
Proof.
  apply strict_of_NoDup.
  - apply StronglySorted_merge_sort; [apply kle_trans|apply kle_total].
  - unfold unicos_ordenados. rewrite (merge_sort_Permutation kle). apply NoDup_remove_dups.
Qed.

Lemma ordenada_map {V} (f : K -> V) (ks : list K) :
  StronglySorted (fun a b => a <k b) ks -> ordenada (map (fun k => (k, f k)) ks).
Proof.
  unfold ordenada. replace (map fst _) with ks; [done|].
  induction ks; simpl; congruence.
Qed.

Lemma buscar_map {V} (f : K -> V) (ks : list K) k :
  buscar k (map (fun k' => (k', f k')) ks) = if bool_decide (k ∈ ks) then Some (f k) else None.
Proof.
  induction ks as [|k' ks IH]; simpl; [|rewrite IH];
    repeat case_decide; repeat case_bool_decide; subst; set_solver.
Qed.
End Unicos.

(** ** The group-by theorems *)

Section GroupByTeoremas.
Context {R K : Type} `{KeyOrder K}.
Variable clave : R -> option K.
Variable valor : R -> numero.

Lemma elem_of_claves k df : k ∈ claves clave df <-> exists r, r ∈ df /\ clave r = Some k.
Proof. apply list_elem_of_omap. Qed.

Lemma total_cons k r df :
  total clave valor k (r :: df) =
    ((if bool_decide (clave r = Some k) then valor_skipna (valor r) else 0) + total clave valor k df)%Z.
Proof. unfold total, grupo; simpl. case_bool_decide; simpl; lia. Qed.

Lemma total_absent k df : k ∉ claves clave df -> total clave valor k df = 0%Z.
Proof.
  induction df as [|r df IH]; [done|]. intros Hn. rewrite total_cons, IH.
  - case_bool_decide; [|lia]. destruct Hn. apply elem_of_claves. exists r. by split; [left|].
  - intros Hin. apply Hn, elem_of_claves. apply elem_of_claves in Hin as (r' & ? & ?).
    exists r'. by split; [right|].
Qed.

Lemma total_opt_cons k r df :
  total_opt clave valor k (r :: df) = agregar (aporte clave valor k r) (total_opt clave valor k df).
Proof.
  unfold total_opt, aporte. rewrite total_cons. unfold claves; simpl.
  destruct (clave r) as [k0|]; [destruct (decide (k = k0)) as [->|Hk]|];
    repeat case_bool_decide; simpl; try set_solver; try congruence.
  all: try (f_equal; lia).
  rewrite total_absent by done. f_equal; lia.
Qed.
End GroupByTeoremas.

Section Correccion.
Context {R K : Type} `{KeyOrder K}.
Variable clave : R -> option K.
Variable valor : R -> numero.

Lemma buscar_paso g r k :
  ordenada g -> buscar k (paso clave valor g r) = agregar (buscar k g) (aporte clave valor k r).
Proof.
  intros Hg. unfold paso, aporte. destruct (clave r) as [k0|]; [|by rewrite agregar_None_r].
  by apply buscar_acumular.
Qed.

Lemma paso_ordenada g r : ordenada g -> ordenada (paso clave valor g r).
Proof. unfold paso. destruct (clave r); [apply acumular_ordenada|done]. Qed.

(** The loop invariant of the one-pass group-by: the accumulator stays
    sorted and holds, for each key, its sum so far. *)
Lemma fold_paso_invariante df g :
  ordenada g ->
  ordenada (fold_left (paso clave valor) df g) /\
  forall k, buscar k (fold_left (paso clave valor) df g) =
            agregar (buscar k g) (total_opt clave valor k df).
Proof.
  revert g. induction df as [|r df IH]; intros g Hg; simpl.
  - split; [done|]. intros k. unfold total_opt, claves; simpl.
    by rewrite agregar_None_r.
  - destruct (IH (paso clave valor g r)) as [Ho Hb]; [by apply paso_ordenada|].
    split; [done|]. intros k.
    by rewrite Hb, buscar_paso, total_opt_cons, agregar_assoc.
Qed.

Lemma groupby_sum_ordenada_aux df : ordenada (groupby_sum clave valor df).
Proof. apply fold_paso_invariante. constructor. Qed.

Lemma buscar_groupby_sum df k :
  buscar k (groupby_sum clave valor df) = total_opt clave valor k df.
Proof. by apply fold_paso_invariante; constructor. Qed.

Lemma buscar_groupby_sum_ref df k :
  buscar k (groupby_sum_ref clave valor df) = total_opt clave valor k df.
Proof.
  unfold groupby_sum_ref, total_opt. rewrite buscar_map.
  by rewrite (bool_decide_ext _ _ (elem_of_unicos_ordenados (claves clave df) k)).
Qed.
End Correccion.

Section Producto.
Context {A B : Type} `{KeyOrder A} `{KeyOrder B}.

(** [MultiIndex.from_product] of two increasing level lists is increasing. *)
Lemma list_prod_strict (xs : list A) (ys : list B) :
  StronglySorted (fun a b => a <k b) xs -> StronglySorted (fun a b => a <k b) ys ->
  StronglySorted (fun a b => a <k b) (list_prod xs ys).
Proof.
  intros Hx Hy. induction Hx as [|a xs Hx IH Hf]; simpl; [constructor|].
  apply StronglySorted_app; split_and!; [| |done].
  - intros [a1 b1] [a2 b2] (b & [= <- <-] & _)%elem_of_map_bool
      Hin%list_elem_of_In%in_prod_iff.
    destruct Hin as [Ha2%list_elem_of_In _]. simpl. unfold kcmp_prod; simpl.
    eapply Forall_forall in Hf; [|done]. by rewrite Hf.
  - clear -Hy. induction Hy as [|b ys _ IHy Hfy]; simpl; constructor; [done|].
    apply Forall_forall. intros [a' b'] (b'' & [= <- <-] & Hb)%elem_of_map_bool.
    simpl. unfold kcmp_prod; simpl. rewrite kcmp_refl.
    by eapply Forall_forall in Hfy.
Qed.
End Producto.

(** ** Properties of the group-by *)

Section Propiedades.
Context {R K : Type} `{KeyOrder K}.
Variable clave : R -> option K.
Variable valor : R -> numero.

Lemma groupby_sum_eq_ref (df : list R) :
  groupby_sum clave valor df = groupby_sum_ref clave valor df.
Proof.
  apply ordenada_ext.
  - apply groupby_sum_ordenada_aux.
  - apply ordenada_map, unicos_ordenados_strict.
  - intros k. by rewrite buscar_groupby_sum, buscar_groupby_sum_ref.
Qed.

Lemma elem_of_groupby_sum (df : list R) k s :
  (k, s) ∈ groupby_sum clave valor df <-> k ∈ claves clave df /\ s = total clave valor k df.
Proof.
  rewrite ordenada_elem_iff by apply groupby_sum_ordenada_aux.
  rewrite buscar_groupby_sum. unfold total_opt. case_bool_decide; naive_solver.
Qed.

Lemma length_groupby_sum (df : list R) :
  length (groupby_sum clave valor df) = length (unicos_ordenados (claves clave df)).
Proof. by rewrite groupby_sum_eq_ref; unfold groupby_sum_ref; rewrite length_map. Qed.

(** C1.  Equivalence: the one-pass accumulating group-by returns exactly
    the reference table, the sorted distinct keys each paired with the
    NaN-skipping sum of its group. *)
Theorem groupby_sum_equiv (df : list R) :
  groupby_sum clave valor df =
  map (fun k => (k, sum_skipna (map valor (List.filter (fun r => bool_decide (clave r = Some k)) df))))
      (unicos_ordenados (omap clave df)).
Proof. apply groupby_sum_eq_ref. Qed.

(** C2.  Functional correctness of [groupby(...).sum()]: a pair [(k, s)]
    is a row of the result iff some row of the table has the non-NaN key
    [k], and then [s] is the NaN-skipping sum of the value column over
    the rows with key [k]. *)
Theorem groupby_sum_elem (df : list R) k s :
  (k, s) ∈ groupby_sum clave valor df <->
  (exists r, r ∈ df /\ clave r = Some k) /\
  s = sum_skipna (map valor (List.filter (fun r => bool_decide (clave r = Some k)) df)).
Proof. by rewrite elem_of_groupby_sum, elem_of_claves. Qed.

(** C3.  Invariant of the result: its keys are strictly increasing, so
    the groups come out in key order ([sort=True]) and no key is listed
    twice. *)
Theorem groupby_sum_sorted (df : list R) :
  StronglySorted (fun a b => a <k b) (map fst (groupby_sum clave valor df)).
Proof. apply groupby_sum_ordenada_aux. Qed.
End Propiedades.

Section CategoricaPropiedades.
Context {R K1 K2 : Type} `{KeyOrder K1} `{KeyOrder K2}.
Variable cats : list K1.
Variables (clave1 : R -> option K1) (clave2 : R -> option K2) (valor : R -> numero).

Lemma groupby_sum_cat_total df :
  groupby_sum_cat cats clave1 clave2 valor df =
  map (fun k => (k, total (clave_par clave1 clave2) valor k df))
      (list_prod cats (unicos_ordenados (claves clave2 df))).
Proof.
  unfold groupby_sum_cat. apply map_ext. intros k. f_equal.
  rewrite buscar_groupby_sum. unfold total_opt.
  case_bool_decide; simpl; [done|]. by rewrite total_absent.
Qed.

Lemma groupby_sum_cat_ordenada df :
  StronglySorted (fun a b => a <k b) cats -> ordenada (groupby_sum_cat cats clave1 clave2 valor df).
Proof.
  intros Hc. rewrite groupby_sum_cat_total.
  apply ordenada_map, list_prod_strict; [done|apply unicos_ordenados_strict].
Qed.

Lemma groupby_sum_cat_length df :
  length (groupby_sum_cat cats clave1 clave2 valor df) =
  length cats * length (unicos_ordenados (claves clave2 df)).
Proof. unfold groupby_sum_cat. by rewrite length_map, length_prod. Qed.

Lemma groupby_sum_cat_elem df a b s :
  ((a, b), s) ∈ groupby_sum_cat cats clave1 clave2 valor df <->
  a ∈ cats /\ b ∈ claves clave2 df /\ s = total (clave_par clave1 clave2) valor (a, b) df.
Proof.
  rewrite groupby_sum_cat_total, elem_of_map_bool, <- (elem_of_unicos_ordenados (claves clave2 df)).
  split.
  - intros ([a' b'] & Hk & Hin). simplify_eq. apply list_elem_of_In, in_prod_iff in Hin.
    rewrite !list_elem_of_In. naive_solver.
  - intros (Ha & Hb & ->). exists (a, b). split; [done|].
    apply list_elem_of_In, in_prod_iff. by rewrite <- !list_elem_of_In.
Qed.
End CategoricaPropiedades.

Section Conservacion.
Context {R K : Type} `{KeyOrder K}.
Variables (clave : R -> option K) (valor : R -> numero).

Lemma suma_acumular k v (g : list (K * Z)) : suma_columna (acumular k v g) = (suma_columna g + v)%Z.
Proof.
  induction g as [|[k' s] g IH]; simpl; [lia|].
  destruct (kcmp k k'); simpl; rewrite ?IH; lia.
Qed.

Lemma suma_fold_paso df (g : list (K * Z)) :
  suma_columna (fold_left (paso clave valor) df g) =
  (suma_columna g + sum_skipna (map valor (List.filter (fun r => bool_decide (is_Some (clave r))) df)))%Z.
Proof.
  revert g. induction df as [|r df IH]; intros g; simpl; [lia|].
  rewrite IH. unfold paso. destruct (clave r) eqn:Hr; simpl.
  - rewrite suma_acumular. lia.
  - lia.
Qed.

(** C17.  Conservation: the sums of all groups add up to the NaN-skipping
    sum of the value column over the rows whose key is not NaN; rows
    with a NaN key are the only ones left out. *)
Theorem groupby_sum_conserva df :
  suma_columna (groupby_sum clave valor df) =
  sum_skipna (map valor (List.filter (fun r => bool_decide (is_Some (clave r))) df)).
Proof. unfold groupby_sum. rewrite suma_fold_paso. simpl. lia. Qed.
End Conservacion.
