(* ===== verification/Filtros.v ===== *)
(** * Row filters and widget option lists

    The boolean masks of dashboard.py: [isin] on the zone column (line 58),
    equality with the two selectbox values (line 74), and [>= 0] on the
    amount column (lines 107 and 121); the option lists
    [sorted(df[col].unique())] of lines 56, 71 and 72; and the value a
    Streamlit [selectbox] returns. *)

From S2P Require Import Prelude Tabla GroupBy.

(** [Series.isin(values)] on a string column. *)
Definition isin (sel : list string) (s : string) : bool :=
  existsb (String.eqb s) sel.

(** [df[df['Zona'].isin(zonas_select)]] *)
Definition filtrar_zonas {M} (zonas_select : list string) (df : list (registro M)) :
    list (registro M) :=
  List.filter (fun r => isin zonas_select (zona r)) df.

(** [sorted(df['Zona'].unique())] and [sorted(df['Canal'].unique())] *)
Definition zonas_disponibles {M} (df : list (registro M)) : list string :=
  unicos_ordenados (map zona df).

Definition canales_disponibles {M} (df : list (registro M)) : list string :=
  unicos_ordenados (map canal df).

(** [st.selectbox(label, options)]: the option at the index the user
    picked (index 0 until the user interacts), [None] when the option list
    is empty. *)
Definition selectbox (opciones : list string) (indice : nat) : option string :=
  opciones !! indice.

(** [series == value] where [value] may be [None]: no string equals None. *)
Definition igual_opt (sel : option string) (s : string) : bool :=
  match sel with
  | Some x => String.eqb s x
  | None => false
  end.

(** [df_filtrado[(df_filtrado['Zona'] == zona_select) & (df_filtrado['Canal'] == canal_select)]] *)
Definition filtrar_zona_canal {M} (zona_select canal_select : option string)
    (df : list (registro M)) : list (registro M) :=
  List.filter (fun r => igual_opt zona_select (zona r) && igual_opt canal_select (canal r)) df.

(** [series >= 0] on a float64 column: NaN compares false. *)
Definition no_negativo (x : numero) : bool :=
  match x with
  | Num z => Z.leb 0 z
  | NaN => false
  end.

(** [df[df['Monto de Venta'] >= 0]] *)
Definition filtrar_monto_no_negativo {M} (df : list (registro M)) : list (registro M) :=
  List.filter (fun r => no_negativo (monto r)) df.

(** ** Lemmas *)

Lemma isin_spec sel s : isin sel s = true <-> s ∈ sel.
Proof.
  unfold isin. rewrite existsb_exists, list_elem_of_In.
  split; [intros (x & Hx & ->%String.eqb_eq); done|intros H; exists s; by rewrite String.eqb_refl].
Qed.

Lemma igual_opt_spec sel s : igual_opt sel s = true <-> sel = Some s.
Proof. destruct sel; simpl; [rewrite String.eqb_eq|]; naive_solver. Qed.

Lemma no_negativo_spec x : no_negativo x = true <-> exists z, x = Num z /\ (0 <= z)%Z.
Proof. destruct x; simpl; [rewrite Z.leb_le|]; naive_solver. Qed.

Lemma elem_of_filtrar_zonas {M} sel (df : list (registro M)) r :
  r ∈ filtrar_zonas sel df <-> r ∈ df /\ zona r ∈ sel.
Proof. unfold filtrar_zonas. by rewrite elem_of_filter_bool, isin_spec. Qed.

Lemma elem_of_zonas_disponibles {M} (df : list (registro M)) z :
  z ∈ zonas_disponibles df <-> exists r, r ∈ df /\ zona r = z.
Proof. unfold zonas_disponibles. rewrite elem_of_unicos_ordenados, elem_of_map_bool. naive_solver. Qed.

(** The zones left by the zone filter are the selected zones of the table. *)
Lemma zonas_disponibles_filtrar {M} sel (df : list (registro M)) z :
  z ∈ zonas_disponibles (filtrar_zonas sel df) <-> z ∈ sel /\ z ∈ zonas_disponibles df.
Proof.
  rewrite !elem_of_zonas_disponibles. setoid_rewrite elem_of_filtrar_zonas. naive_solver.
Qed.

Lemma elem_of_canales_disponibles {M} (df : list (registro M)) c :
  c ∈ canales_disponibles df <-> exists r, r ∈ df /\ canal r = c.
Proof. unfold canales_disponibles. rewrite elem_of_unicos_ordenados, elem_of_map_bool. naive_solver. Qed.

Lemma elem_of_filtrar_zona_canal {M} zs cs (df : list (registro M)) r :
  r ∈ filtrar_zona_canal zs cs df <-> r ∈ df /\ zs = Some (zona r) /\ cs = Some (canal r).
Proof.
  unfold filtrar_zona_canal. rewrite elem_of_filter_bool, andb_true_iff, !igual_opt_spec.
  naive_solver.
Qed.

Lemma filtrar_zona_canal_None_l {M} cs (df : list (registro M)) :
  filtrar_zona_canal None cs df = [].
Proof. induction df; simpl; done. Qed.

Lemma selectbox_elem opciones i s : selectbox opciones i = Some s -> s ∈ opciones.
Proof. apply list_elem_of_lookup_2. Qed.

Lemma selectbox_vacio i : selectbox [] i = None.
Proof. done. Qed.

Lemma filtrar_zonas_nil {M} (df : list (registro M)) : filtrar_zonas [] df = [].
Proof. induction df; simpl; done. Qed.

#[export] Hint Rewrite @filtrar_zona_canal_None_l @filtrar_zonas_nil selectbox_vacio : dash_rw.

(** ** Properties *)

(** C4.  The [>= 0] mask of lines 107 and 121 keeps a row iff its amount
    is a number and that number is non-negative: it removes every row with
    a negative amount, every row whose amount is NaN, and nothing else, and
    keeps the remaining rows in their order. *)
Theorem filtrar_monto_no_negativo_spec {M} (df : list (registro M)) r :
  (r ∈ filtrar_monto_no_negativo df <->
     r ∈ df /\ exists z, monto r = Num z /\ (0 <= z)%Z) /\
  sublist (filtrar_monto_no_negativo df) df.
Proof.
  split.
  - unfold filtrar_monto_no_negativo. by rewrite elem_of_filter_bool, no_negativo_spec.
  - unfold filtrar_monto_no_negativo. induction df as [|r' df IH]; simpl; [done|].
    destruct (no_negativo (monto r')); [by apply sublist_skip|by apply sublist_cons].
Qed.
