(* ===== verification/Orden.v ===== *)
(** * [sort_values(col, ascending=False).head(n)]

    The aggregated table of lines 86-90 is a list of (key, sum) rows.
    [ordenar_desc] sorts it by the sum, largest first; pandas' default
    [kind='quicksort'] is not a stable sort, so the order of equal sums is
    unspecified and any correct sort models it: we use stdpp's
    [merge_sort].  [head(n)] keeps the first [n] rows ([take]). *)

From S2P Require Import Prelude.

Section Orden.
Context {K : Type}.

(** [a] may come before [b] in a descending sort by the second column. *)
Definition mayor_igual (a b : K * Z) : Prop := (b.2 <= a.2)%Z.

#[global] Instance mayor_igual_dec : RelDecision mayor_igual.
Proof. intros a b. unfold mayor_igual. apply _. Defined.

(** [.sort_values(col, ascending=False)] *)
Definition ordenar_desc (g : list (K * Z)) : list (K * Z) :=
  merge_sort mayor_igual g.

(** [.head(n)] *)
Definition head_n {A} (n : nat) (l : list A) : list A := take n l.

Definition top_n (n : nat) (g : list (K * Z)) : list (K * Z) :=
  head_n n (ordenar_desc g).

#[global] Instance mayor_igual_total : Total mayor_igual.
Proof. intros a b. unfold mayor_igual. lia. Qed.

#[global] Instance mayor_igual_trans : Transitive mayor_igual.
Proof. intros a b c. unfold mayor_igual. lia. Qed.

Lemma ordenar_desc_perm g : ordenar_desc g ≡ₚ g.
Proof. apply merge_sort_Permutation. Qed.

Lemma ordenar_desc_sorted g : StronglySorted mayor_igual (ordenar_desc g).
Proof. apply StronglySorted_merge_sort; apply _. Qed.

Lemma top_n_sorted n g : StronglySorted mayor_igual (top_n n g).
Proof.
  unfold top_n, head_n. eapply StronglySorted_app_1_l.
  rewrite take_drop. apply ordenar_desc_sorted.
Qed.

Lemma top_n_length n g : length (top_n n g) = min n (length g).
Proof. unfold top_n, head_n. by rewrite length_take, (Permutation_length (ordenar_desc_perm g)). Qed.

Lemma top_n_submseteq n g : top_n n g ⊆+ g.
Proof.
  unfold top_n, head_n. rewrite <- (ordenar_desc_perm g) at 2.
  rewrite <- (take_drop n (ordenar_desc g)) at 2. by apply submseteq_inserts_r.
Qed.

(** A row left out of the first [n] sold at most as much as any row kept. *)
Lemma top_n_maximal n g x y :
  x ∈ g -> x ∉ top_n n g -> y ∈ top_n n g -> (x.2 <= y.2)%Z.
Proof.
  unfold top_n, head_n. intros Hx Hnx Hy.
  rewrite <- (ordenar_desc_perm g), <- (take_drop n (ordenar_desc g)), elem_of_app in Hx.
  destruct Hx as [Hx|Hx]; [done|].
  pose proof (ordenar_desc_sorted g) as Hs. rewrite <- (take_drop n (ordenar_desc g)) in Hs.
  exact (StronglySorted_app_1_elem_of _ _ _ y x Hs Hy Hx).
Qed.
End Orden.
