(* ===== verification/Ventas.v ===== *)
(** * View 1: "Análisis de ventas por categoría" (dashboard.py 55-81)

    The zone multiselect filters the table; the radar chart gets the sales
    summed per (Zona, Canal); two selectboxes over the zones and channels
    left after the filter pick one pair, and the line chart gets the sales
    of that pair summed per (Mes, Producto), where [Mes] is categorical, so
    pandas' [observed=False] lists every month for every product. *)

From S2P Require Import Prelude Tabla GroupBy Filtros.

(** [groupby(['Zona', 'Canal'])] *)
Definition clave_zona_canal (r : registro (option nat)) : option (string * string) :=
  Some (zona r, canal r).

(** [df_radar = df_filtrado.groupby(['Zona', 'Canal'], as_index=False)['Monto de Venta'].sum()] *)
Definition df_radar (df_filtrado : tabla) : list ((string * string) * Z) :=
  groupby_sum clave_zona_canal monto df_filtrado.

(** Lines 74-75: the rows of the chosen zone and channel, summed per
    (Mes, Producto); the categories of [Mes] are the codes of [meses]. *)
Definition df_linea (zona_select canal_select : option string) (df_filtrado : tabla) :
    list ((nat * string) * Z) :=
  groupby_sum_cat (seq 0 (length meses)) mes (fun r => Some (producto r)) monto
    (filtrar_zona_canal zona_select canal_select df_filtrado).

(** Python's [str()] of a selectbox value inside the f-string of line 79. *)
Definition py_str (o : option string) : string :=
  match o with
  | Some s => s
  | None => "None"
  end.

(** [f"Evolución de ventas ({zona_select} - {canal_select})"] *)
Definition titulo_linea (zona_select canal_select : option string) : string :=
  ("Evolución de ventas (" ++ py_str zona_select ++ " - " ++ py_str canal_select ++ ")")%string.

(** What the view computes and hands to the widgets and charts. *)
Record vista_ventas := mkVistaVentas {
  zonas_opciones : list string;                (* options of the multiselect, line 56 *)
  radar : list ((string * string) * Z);        (* df_radar, line 61 *)
  zona_opciones : list string;                 (* options of the "Zona:" selectbox *)
  canal_opciones : list string;                (* options of the "Canal:" selectbox *)
  zona_elegida : option string;                (* zona_select *)
  canal_elegido : option string;               (* canal_select *)
  linea : list ((nat * string) * Z);           (* df_linea, line 75 *)
  titulo : string                              (* title of fig_linea *)
}.

(** The widget values of this view: the selected zones and the indices
    chosen in the two selectboxes. *)
Record entradas_ventas := mkEntradasVentas {
  zonas_select : list string;
  indice_zona : nat;
  indice_canal : nat
}.

(** Lines 56-81, in the order the script runs them. *)
Definition analisis_ventas (df : tabla) (e : entradas_ventas) : vista_ventas :=
  let zonas_disp := zonas_disponibles df in
  let df_filtrado := filtrar_zonas (zonas_select e) df in
  let zo := zonas_disponibles df_filtrado in
  let co := canales_disponibles df_filtrado in
  let zs := selectbox zo (indice_zona e) in
  let cs := selectbox co (indice_canal e) in
  mkVistaVentas zonas_disp (df_radar df_filtrado) zo co zs cs
    (df_linea zs cs df_filtrado) (titulo_linea zs cs).

(** ** Lemmas *)

Lemma grupo_radar sel (df : tabla) z c :
  z ∈ sel ->
  List.filter (fun r => bool_decide (clave_zona_canal r = Some (z, c))) (filtrar_zonas sel df) =
  List.filter (fun r => bool_decide (zona r = z /\ canal r = c)) df.
Proof.
  intros Hz. unfold filtrar_zonas. rewrite filter_filter_and. apply filter_ext_bool.
  intros r. mascara_iff. rewrite isin_spec.
  unfold clave_zona_canal. naive_solver.
Qed.

(** C6.  The line chart of lines 74-75: a row [((m, p), s)] is in
    [df_linea] iff [m] is one of the five month codes, [p] is a product
    sold in the chosen zone and channel, and [s] is the NaN-skipping sum of
    the amounts of the rows of that zone, channel, month and product.  So
    every month is listed for every product (with sum 0 when nothing was
    sold), and rows whose [Mes] is outside [meses] (no code) count for no
    month. *)
Theorem df_linea_elem zs cs (df : tabla) m p s :
  ((m, p), s) ∈ df_linea zs cs df <->
  m < length meses /\
  (exists r, r ∈ df /\ zs = Some (zona r) /\ cs = Some (canal r) /\ producto r = p) /\
  s = sum_skipna (map monto (List.filter
        (fun r => bool_decide (zs = Some (zona r) /\ cs = Some (canal r) /\
                               mes r = Some m /\ producto r = p)) df)).
Proof.
  unfold df_linea. rewrite groupby_sum_cat_elem, list_elem_of_In, in_seq, elem_of_claves.
  setoid_rewrite elem_of_filtrar_zona_canal.
  unfold total, grupo, filtrar_zona_canal. rewrite filter_filter_and.
  assert (Hf : forall r : registro (option nat),
    igual_opt zs (zona r) && igual_opt cs (canal r) &&
      bool_decide (clave_par mes (fun r => Some (producto r)) r = Some (m, p)) =
    bool_decide (zs = Some (zona r) /\ cs = Some (canal r) /\ mes r = Some m /\ producto r = p)).
  { intros r. mascara_iff. rewrite !igual_opt_spec.
    unfold clave_par. destruct (mes r); naive_solver. }
  rewrite (filter_ext_bool _ _ df Hf). naive_solver lia.
Qed.

(** ** Properties *)

(** C5.  The radar table of line 61: a row [((z, c), s)] is in [df_radar]
    of the zone-filtered table iff [z] is a selected zone, some row of the
    table has zone [z] and channel [c], and [s] is the NaN-skipping sum of
    the amounts of exactly the rows with zone [z] and channel [c]. *)
Theorem df_radar_spec sel (df : tabla) z c s :
  ((z, c), s) ∈ df_radar (filtrar_zonas sel df) <->
  z ∈ sel /\ (exists r, r ∈ df /\ zona r = z /\ canal r = c) /\
  s = sum_skipna (map monto (List.filter (fun r => bool_decide (zona r = z /\ canal r = c)) df)).
Proof.
  unfold df_radar. rewrite elem_of_groupby_sum, elem_of_claves. setoid_rewrite elem_of_filtrar_zonas.
  unfold total, grupo.
  unfold clave_zona_canal. split.
  - intros ((r & [Hr Hsel] & [= <- <-]) & ->). rewrite grupo_radar by done. naive_solver.
  - intros (Hsel & (r & Hr & <- & <-) & ->). rewrite grupo_radar by done. naive_solver.
Qed.

(** C7.  Order and shape of the line chart's table: its (month, product)
    keys are strictly increasing, month first, so the months come in
    calendar order Enero..Mayo and not in lexical order; and it has one
    row per month and product. *)
Theorem df_linea_orden zs cs (df : tabla) :
  StronglySorted (fun a b => a <k b) (map fst (df_linea zs cs df)) /\
  length (df_linea zs cs df) =
    length meses * length (unicos_ordenados (map producto (filtrar_zona_canal zs cs df))).
Proof.
  split.
  - apply groupby_sum_cat_ordenada, seq_strict.
  - unfold df_linea. rewrite groupby_sum_cat_length, length_seq. do 3 f_equal.
Qed.

(** C8.  Deselecting every zone (spec: empty selection) is not an error:
    the radar table is empty, both selectboxes have no options and return
    [None], the line table is empty and the title shows [None - None]. *)
Theorem analisis_ventas_sin_zonas (df : tabla) i j :
  analisis_ventas df (mkEntradasVentas [] i j) =
  mkVistaVentas (zonas_disponibles df) [] [] [] None None []
    "Evolución de ventas (None - None)"%string.
Proof. unfold analisis_ventas; simpl. by autorewrite with dash_rw. Qed.

(** A row of zone "Norte" and channel "Online" for the examples below. *)
Definition fila_ejemplo (m p : string) (v : Z) : registro string :=
  mkRegistro "Norte"%string "Online"%string m p "Ana"%string (Num v) "Sí"%string
    NaN NaN NaN NaN "Sí"%string NaN.

(** Sales in Marzo, Enero and Mayo, given in that order: the line table
    lists the months in calendar order and also lists Febrero and Abril,
    with sum 0 (pandas' [observed=False] for a categorical key). *)
Example df_linea_meses_ejemplo :
  df_linea (Some "Norte"%string) (Some "Online"%string)
    (normalizar [fila_ejemplo "Marzo" "A" 5; fila_ejemplo "Enero" "A" 3;
                 fila_ejemplo "Mayo" "A" 2]%string%Z) =
  [((0, "A"), 3%Z); ((1, "A"), 0%Z); ((2, "A"), 5%Z); ((3, "A"), 0%Z); ((4, "A"), 2%Z)]%nat%string.
Proof. vm_compute. reflexivity. Qed.

(** C15.  The multiselect's default value, every available zone (line 57),
    filters nothing: the radar table of the default view is the group-by
    of the whole table. *)
Theorem radar_seleccion_por_defecto (df : tabla) :
  filtrar_zonas (zonas_disponibles df) df = df /\
  df_radar (filtrar_zonas (zonas_disponibles df) df) = df_radar df.
Proof.
  assert (Hf : filtrar_zonas (zonas_disponibles df) df = df).
  { unfold filtrar_zonas. apply filter_all_bool. intros r Hr.
    apply isin_spec, elem_of_zonas_disponibles. by exists r. }
  by rewrite Hf.
Qed.
