(* ===== verification/Asesores.v ===== *)
(** * View 2: "Análisis de Asesores" (dashboard.py 84-115)

    Three tables: the ten advisors with the largest summed sales (a
    group-by, a descending sort and [head(10)]), the sales summed per value
    of the training flag, and the rows with a non-negative amount for the
    tenure-versus-goal scatter chart.  This view ignores the zone filter of
    view 1. *)

From S2P Require Import Prelude Tabla GroupBy Filtros Orden.

(** [groupby('Asesor')] *)
Definition clave_asesor (r : registro (option nat)) : option string := Some (asesor r).

(** [df.groupby('Asesor')['Monto de Venta'].sum().reset_index()
       .sort_values('Monto de Venta', ascending=False).head(10)] *)
Definition df_top (df : tabla) : list (string * Z) :=
  top_n 10 (groupby_sum clave_asesor monto df).

(** [groupby('¿Capacitado?')] *)
Definition clave_capacitado (r : registro (option nat)) : option string := Some (capacitado r).

(** [df.groupby('¿Capacitado?')['Monto de Venta'].sum().reset_index()] *)
Definition df_capacitado (df : tabla) : list (string * Z) :=
  groupby_sum clave_capacitado monto df.

(** The tables the view hands to its three charts. *)
Record vista_asesores := mkVistaAsesores {
  top : list (string * Z);                    (* df_top, fig1 *)
  por_capacitacion : list (string * Z);       (* df_capacitado, fig2 *)
  dispersion_asesores : tabla                 (* df_filtrado, fig3 *)
}.

Definition analisis_asesores (df : tabla) : vista_asesores :=
  mkVistaAsesores (df_top df) (df_capacitado df) (filtrar_monto_no_negativo df).

(** The summed sales of one advisor over the whole table. *)
Definition total_asesor (a : string) (df : tabla) : Z :=
  total clave_asesor monto a df.

(** ** Lemmas *)

Lemma elem_of_groupby_asesor (df : tabla) a s :
  (a, s) ∈ groupby_sum clave_asesor monto df <->
  (exists r, r ∈ df /\ asesor r = a) /\ s = total_asesor a df.
Proof.
  rewrite elem_of_groupby_sum, elem_of_claves. unfold clave_asesor, total_asesor.
  naive_solver.
Qed.

Lemma length_groupby_asesor (df : tabla) :
  length (groupby_sum clave_asesor monto df) = length (unicos_ordenados (map asesor df)).
Proof.
  rewrite length_groupby_sum. unfold claves, clave_asesor. do 2 f_equal.
Qed.

(** ** Properties *)

(** C9.  The top-10 table: it has [min 10 n] rows where [n] is the number
    of distinct advisors, it is sorted by summed sales, largest first, and
    each of its rows is an advisor of the table with that advisor's
    NaN-skipping total. *)
Theorem df_top_spec (df : tabla) :
  length (df_top df) = min 10 (length (unicos_ordenados (map asesor df))) /\
  StronglySorted (fun x y => (y.2 <= x.2)%Z) (df_top df) /\
  (forall a s, (a, s) ∈ df_top df ->
     (exists r, r ∈ df /\ asesor r = a) /\ s = total_asesor a df).
Proof.
  unfold df_top. split_and!.
  - by rewrite top_n_length, length_groupby_asesor.
  - apply top_n_sorted.
  - intros a s Hin. apply elem_of_groupby_asesor.
    eapply elem_of_submseteq; [done|apply top_n_submseteq].
Qed.

(** C10.  The top 10 are the best sellers: an advisor of the table left
    out of [df_top] has summed sales no larger than those of any advisor
    kept (so with distinct totals [df_top] is exactly the ten highest;
    with ties the unstable sort decides which tied advisor is kept). *)
Theorem df_top_maximal (df : tabla) a a' s' :
  a ∈ map asesor df -> a ∉ map fst (df_top df) -> (a', s') ∈ df_top df ->
  (total_asesor a df <= s')%Z.
Proof.
  intros Ha Hna Hin.
  apply (top_n_maximal 10 (groupby_sum clave_asesor monto df) (a, total_asesor a df) (a', s'));
    [|intros Hx; apply Hna, elem_of_map_bool; by exists (a, total_asesor a df)|done].
  apply elem_of_groupby_asesor. split; [|done].
  apply elem_of_map_bool in Ha as (r & -> & Hr). by exists r.
Qed.

(** ** Witnesses *)

(** A row of advisor [a] with amount [v]. *)
Definition fila_asesor (a : string) (v : Z) : registro string :=
  mkRegistro "Norte"%string "Online"%string "Enero"%string "P"%string a (Num v)
    "Sí"%string NaN NaN NaN NaN "No"%string NaN.

(** Fifteen advisors with distinct totals 1..15, as in the spec's test. *)
Definition df_quince : tabla :=
  normalizar (map (fun i => fila_asesor ("A" ++ String (Ascii.ascii_of_nat (65 + i)) "")%string
                                        (Z.of_nat (S i))) (seq 0 15)).

Lemma df_top_maximal_witness :
  "AA"%string ∈ map asesor df_quince /\ "AA"%string ∉ map fst (df_top df_quince) /\
  ("AF"%string, 6%Z) ∈ df_top df_quince /\ (total_asesor "AA" df_quince <= 6)%Z.
Proof.
  assert (H1 : "AA"%string ∈ map asesor df_quince)
    by (apply (bool_decide_eq_true_1 _); vm_compute; reflexivity).
  assert (H2 : "AA"%string ∉ map fst (df_top df_quince))
    by (apply (bool_decide_eq_true_1 _); vm_compute; reflexivity).
  assert (H3 : ("AF"%string, 6%Z) ∈ df_top df_quince)
    by (apply (bool_decide_eq_true_1 _); vm_compute; reflexivity).
  split_and!; [exact H1|exact H2|exact H3|].
  exact (df_top_maximal df_quince "AA" "AF" 6 H1 H2 H3).
Defined.
