(* ===== verification/Clientes.v ===== *)
(** * View 3: "Análisis de cliente vs publicidad" (dashboard.py 118-137)

    Two record-level scatter charts: the rows with a non-negative amount,
    sized by the amount, and the whole table, sized by the share of new
    customers.  plotly express rejects a negative or missing marker size,
    so which rows reach a chart sized by a column matters. *)

From S2P Require Import Prelude Tabla Filtros Asesores.

(** The tables the view hands to its two charts. *)
Record vista_clientes := mkVistaClientes {
  dispersion_publicidad : tabla;    (* df_filtrado, fig1, size='Monto de Venta' *)
  dispersion_edad : tabla           (* df, fig2, size='% Clientes Nuevos' *)
}.

Definition analisis_clientes (df : tabla) : vista_clientes :=
  mkVistaClientes (filtrar_monto_no_negativo df) df.

(** ** Properties *)

(** C11.  The two scatter charts sized by 'Monto de Venta' (fig3 of view
    2, fig1 of view 3) only receive rows whose amount is a finite,
    non-negative number, so every marker size is valid; both get the same
    rows. *)
Theorem tamanos_validos (df : tabla) :
  dispersion_publicidad (analisis_clientes df) = dispersion_asesores (analisis_asesores df) /\
  Forall (fun r => exists z, monto r = Num z /\ (0 <= z)%Z)
    (dispersion_publicidad (analisis_clientes df)).
Proof.
  split; [done|]. apply Forall_forall. intros r.
  simpl. unfold filtrar_monto_no_negativo. rewrite elem_of_filter_bool, no_negativo_spec.
  by intros [_ ?].
Qed.
