(* ===== verification/Sesion.v ===== *)
(** * The script run, the sidebar router and the widget session

    Streamlit re-runs the whole script after every widget interaction.  A
    run ([ejecutar]) loads the table through the [@st.cache_data] memo of
    [load_data] (dashboard.py 5-7, 33), normalises [Mes] (34-38), reads the
    sidebar radio over [analisis] (42-44) and runs the view the if/elif
    chain selects (55, 84, 118).  The widget values and the memo persist
    between runs: [sesion] is that state and [paso_sesion] the step
    relation of one interaction followed by one run.  The widget semantics
    are Streamlit's, modelled from its documentation: a widget's state is
    kept under its id (kind, label, options), a selectbox whose options
    change is a new widget starting at its first option, and the state of
    the widgets a run does not draw is dropped after the run. *)

From S2P Require Import Prelude Tabla Filtros Ventas Asesores Clientes.

(** Line 42. *)
Definition analisis : list string :=
  ["Análisis de ventas por categoría"; "Análisis de Asesores";
   "Análisis de cliente vs publicidad"]%string.

(** [st.sidebar.radio(label, options)]: the option at the chosen index. *)
Definition radio (opciones : list string) (indice : nat) : option string :=
  opciones !! indice.

(** What a run renders. *)
Inductive salida : Type :=
| SalidaVentas (v : vista_ventas)
| SalidaAsesores (v : vista_asesores)
| SalidaClientes (v : vista_clientes)
| SalidaNinguna.

(** The if/elif chain of lines 55, 84 and 118 on [section]. *)
Definition despachar (section : option string) (df : tabla) (e : entradas_ventas) : salida :=
  match section with
  | Some s =>
      if String.eqb s "Análisis de ventas por categoría" then SalidaVentas (analisis_ventas df e)
      else if String.eqb s "Análisis de Asesores" then SalidaAsesores (analisis_asesores df)
      else if String.eqb s "Análisis de cliente vs publicidad" then SalidaClientes (analisis_clientes df)
      else SalidaNinguna
  | None => SalidaNinguna
  end.

(** The widget state kept between runs, keyed as Streamlit keys it: a
    widget without [key=] is identified by its kind, label and options.
    [zonas] is the multiselect's value, [None] until the user touches it
    (its options and default, every zone of the memoised table, never
    change).  Each selectbox keeps the options it was last drawn with and
    the index chosen among them; [None] when it was not drawn. *)
Record widgets := mkWidgets {
  indice_seccion : nat;
  zonas : option (list string);
  zona_w : option (list string * nat);
  canal_w : option (list string * nat)
}.

Record sesion := mkSesion {
  cache : option tabla_cruda;     (* the memo of load_data *)
  estado : widgets
}.

Definition sesion_inicial : sesion := mkSesion None (mkWidgets 0 None None None).

(** [@st.cache_data def load_data()]: the first call reads the file, later
    calls return the memoised table, whatever the file holds then. *)
Definition load_data (archivo : tabla_cruda) (c : option tabla_cruda) :
    tabla_cruda * option tabla_cruda :=
  match c with
  | Some t => (t, c)
  | None => (archivo, Some archivo)
  end.

(** The index a selectbox drawn over [opciones] starts from: the stored
    one when it was last drawn with the same options (same widget id), the
    first option when its options changed (a new widget) or it was not
    drawn. *)
Definition indice_guardado (opciones : list string) (w : option (list string * nat)) : nat :=
  match w with
  | Some (os, i) => if bool_decide (os = opciones) then i else 0
  | None => 0
  end.

(** The inputs of view 1 from the widget state, with the multiselect
    default [zonas_disponibles] (line 57) and the selectboxes' options
    computed from the filtered table as lines 71-72 compute them. *)
Definition entradas_de (df : tabla) (w : widgets) : entradas_ventas :=
  let zs := from_option id (zonas_disponibles df) (zonas w) in
  let df_filtrado := filtrar_zonas zs df in
  mkEntradasVentas zs (indice_guardado (zonas_disponibles df_filtrado) (zona_w w))
    (indice_guardado (canales_disponibles df_filtrado) (canal_w w)).

(** After a run Streamlit keeps the state of the widgets the run drew,
    under the ids they were drawn with, and drops the others: the view-1
    widgets survive only a run of view 1. *)
Definition tras_ejecucion (w : widgets) (e : entradas_ventas) (o : salida) : widgets :=
  match o with
  | SalidaVentas v =>
      mkWidgets (indice_seccion w) (zonas w)
        (Some (zona_opciones v, indice_zona e)) (Some (canal_opciones v, indice_canal e))
  | _ => mkWidgets (indice_seccion w) None None None
  end.

(** One run of the script with the file holding [archivo]. *)
Definition ejecutar (archivo : tabla_cruda) (s : sesion) : sesion * salida :=
  let '(df_crudo, c) := load_data archivo (cache s) in
  let df := normalizar df_crudo in
  let e := entradas_de df (estado s) in
  let o := despachar (radio analisis (indice_seccion (estado s))) df e in
  (mkSesion c (tras_ejecucion (estado s) e o), o).

(** A user interaction. *)
Inductive evento : Type :=
| ElegirSeccion (i : nat)
| ElegirZonas (zs : list string)
| ElegirZona (i : nat)
| ElegirCanal (i : nat).

(** The frontend sends the new value of one widget; the selectboxes keep
    their id (the options they were drawn with). *)
Definition aplicar (ev : evento) (w : widgets) : widgets :=
  match ev with
  | ElegirSeccion i => mkWidgets i (zonas w) (zona_w w) (canal_w w)
  | ElegirZonas zs => mkWidgets (indice_seccion w) (Some zs) (zona_w w) (canal_w w)
  | ElegirZona i =>
      mkWidgets (indice_seccion w) (zonas w) (option_map (fun p => (p.1, i)) (zona_w w)) (canal_w w)
  | ElegirCanal i =>
      mkWidgets (indice_seccion w) (zonas w) (zona_w w) (option_map (fun p => (p.1, i)) (canal_w w))
  end.

(** The radio only offers its three options. *)
Definition evento_valido (ev : evento) : bool :=
  match ev with
  | ElegirSeccion i => bool_decide (i < length analisis)
  | _ => true
  end.

Definition con_evento (ev : evento) (s : sesion) : sesion :=
  mkSesion (cache s) (aplicar ev (estado s)).

(** One interaction and the run it triggers; the file may have changed. *)
Inductive paso_sesion : sesion -> salida -> sesion -> Prop :=
| paso_interaccion s ev archivo :
    evento_valido ev = true ->
    paso_sesion s (snd (ejecutar archivo (con_evento ev s))) (fst (ejecutar archivo (con_evento ev s))).

(** Case on a radio index below 3: each option selects its branch of the
    if/elif chain by string comparison. *)
Ltac por_indice i Hi :=
  do 3 (destruct i as [|i];
        [unfold despachar; cbn [radio analisis lookup list_lookup]; by rewrite ?String.eqb_refl|]);
  simpl in Hi; lia.

(** ** Lemmas *)

Lemma ejecutar_cache archivo s :
  cache (fst (ejecutar archivo s)) = Some (from_option id archivo (cache s)).
Proof. unfold ejecutar, load_data. by destruct (cache s). Qed.

Lemma tras_ejecucion_indice w e o : indice_seccion (tras_ejecucion w e o) = indice_seccion w.
Proof. by destruct o. Qed.

Lemma ejecutar_indice archivo s :
  indice_seccion (estado (fst (ejecutar archivo s))) = indice_seccion (estado s).
Proof. unfold ejecutar. destruct (load_data archivo (cache s)). apply tras_ejecucion_indice. Qed.

(** The multiselect value survives a run of view 1 and is dropped by any
    other run. *)
Lemma tras_ejecucion_zonas w e o :
  zonas (tras_ejecucion w e o) = zonas w \/ zonas (tras_ejecucion w e o) = None.
Proof. destruct o; [left|right..]; done. Qed.

Lemma despachar_0 df e : despachar (radio analisis 0) df e = SalidaVentas (analisis_ventas df e).
Proof. unfold despachar. cbn [radio analisis lookup list_lookup]. by rewrite String.eqb_refl. Qed.

(** Only view 1 reads the widget inputs. *)
Lemma despachar_sin_entradas i df e e' :
  despachar (radio analisis (S i)) df e = despachar (radio analisis (S i)) df e'.
Proof. by destruct i as [|[|i]]. Qed.

(** A run of view 1 stores the selectboxes under the options it drew them
    with, so the inputs read back from the new state are the inputs of the
    run. *)
Lemma entradas_tras_ventas df w :
  let e := entradas_de df w in
  entradas_de df (tras_ejecucion w e (SalidaVentas (analisis_ventas df e))) = e.
Proof.
  intros e. unfold e, entradas_de at 1. cbn [tras_ejecucion zonas zona_w canal_w indice_guardado].
  unfold analisis_ventas, entradas_de. cbn [zona_opciones canal_opciones zonas_select indice_zona indice_canal].
  by rewrite !bool_decide_eq_true_2.
Qed.

Lemma ejecutar_entradas_0 archivo s :
  indice_seccion (estado s) = 0 ->
  let df := normalizar (fst (load_data archivo (cache s))) in
  entradas_de df (estado (fst (ejecutar archivo s))) = entradas_de df (estado s).
Proof.
  intros Hi df. unfold df, ejecutar. destruct (load_data archivo (cache s)) as [t c].
  cbn [fst estado]. rewrite Hi, despachar_0. apply entradas_tras_ventas.
Qed.

(** A run reproduces itself: what it rendered is what its own next state
    renders from the same table. *)
Lemma ejecutar_reproduce archivo s t :
  cache s = Some t ->
  snd (ejecutar archivo s) =
    despachar (radio analisis (indice_seccion (estado (fst (ejecutar archivo s))))) (normalizar t)
      (entradas_de (normalizar t) (estado (fst (ejecutar archivo s)))).
Proof.
  intros Hc. rewrite ejecutar_indice. unfold ejecutar, load_data. rewrite Hc. cbn [fst snd estado].
  destruct (indice_seccion (estado s)) as [|i] eqn:Hi.
  - rewrite !despachar_0. by rewrite entradas_tras_ventas.
  - apply despachar_sin_entradas.
Qed.

(** ** Properties *)

(** C12.  The router: the radio index [i] of the sidebar selects exactly
    one view, the one named [analisis !! i]: index 0 runs the sales view
    with the widget inputs, 1 the advisors view, 2 the customers view. *)
Theorem despachar_spec i df e :
  i < length analisis ->
  despachar (radio analisis i) df e =
    match i with
    | 0 => SalidaVentas (analisis_ventas df e)
    | 1 => SalidaAsesores (analisis_asesores df)
    | _ => SalidaClientes (analisis_clientes df)
    end.
Proof. intros Hi. por_indice i Hi. Qed.

(** C13.  The memo of [load_data] is never invalidated: once a run has
    loaded a table [t], every later run renders from [t] and keeps [t],
    even when the file has changed in between. *)
Theorem paso_cache s o s' t :
  paso_sesion s o s' -> cache s = Some t ->
  cache s' = Some t /\
  o = despachar (radio analisis (indice_seccion (estado s'))) (normalizar t)
        (entradas_de (normalizar t) (estado s')).
Proof.
  intros Hp Hc. inversion Hp as [s0 ev archivo Hv]; subst.
  split; [by rewrite ejecutar_cache; simpl; rewrite Hc|].
  by apply ejecutar_reproduce.
Qed.

(** ** Witnesses *)

(** Two contents of the data file: the one of the first run and a later,
    different one. *)
Definition archivo_1 : tabla_cruda :=
  [mkRegistro "Norte" "Online" "Enero" "P" "Ana" (Num 10) "Sí" NaN NaN NaN NaN "Sí" NaN]%string%Z.

Definition archivo_2 : tabla_cruda :=
  [mkRegistro "Sur" "Tienda" "Mayo" "Q" "Luis" (Num 7) "No" NaN NaN NaN NaN "No" NaN]%string%Z.

Definition sesion_1 : sesion := fst (ejecutar archivo_1 sesion_inicial).

Lemma despachar_spec_witness :
  1 < length analisis /\
  despachar (radio analisis 1) (normalizar archivo_1) (mkEntradasVentas [] 0 0) =
    SalidaAsesores (analisis_asesores (normalizar archivo_1)).
Proof.
  assert (H : 1 < length analisis) by (simpl; lia).
  split; [exact H|]. exact (despachar_spec 1 _ _ H).
Defined.

Lemma paso_cache_witness :
  paso_sesion sesion_1 (snd (ejecutar archivo_2 (con_evento (ElegirSeccion 1) sesion_1)))
    (fst (ejecutar archivo_2 (con_evento (ElegirSeccion 1) sesion_1))) /\
  cache sesion_1 = Some archivo_1 /\
  cache (fst (ejecutar archivo_2 (con_evento (ElegirSeccion 1) sesion_1))) = Some archivo_1.
Proof.
  assert (Hp : paso_sesion sesion_1 (snd (ejecutar archivo_2 (con_evento (ElegirSeccion 1) sesion_1)))
                 (fst (ejecutar archivo_2 (con_evento (ElegirSeccion 1) sesion_1))))
    by (apply paso_interaccion; vm_compute; reflexivity).
  assert (Hc : cache sesion_1 = Some archivo_1) by reflexivity.
  split_and!; [exact Hp|exact Hc|]. exact (proj1 (paso_cache _ _ _ _ Hp Hc)).
Defined.
