(* ===== verification/Graficos.v ===== *)
(** * The chart encodings (plotly express calls of dashboard.py)

    Each [px.*] call names the columns of its data frame it maps to
    position, colour, size, text and hover.  A name that is not a column of
    that frame raises a KeyError-class error at render time (spec section
    7).  Here each derived frame has its column list ([esquema_*],
    computed the way pandas names the columns of a filter and of
    [groupby(..., as_index=False).sum()] / [reset_index()]) and each call
    is a [grafico] record with the columns it references. *)

From S2P Require Import Prelude Tabla Filtros.

Local Open Scope string_scope.

Inductive tipo_grafico : Type :=
| LinePolar     (* px.line_polar *)
| Line          (* px.line *)
| Bar           (* px.bar *)
| Scatter.      (* px.scatter *)

(** Lines 47-51: [colores_capacitacion]. *)
Definition colores_capacitacion : list (string * string) :=
  [("Sí", "#31572c"); ("No", "#90a955"); ("Desconocido", "#ecf39e")].

(** Line 52: [colores_base]. *)
Definition colores_base : list string :=
  ["#31572c"; "#4f772d"; "#90a955"; "#ecf39e"; "#fefae0"].

(** The colour argument of a [px] call: [color_discrete_sequence],
    [color_discrete_map], or none (plotly's defaults). *)
Inductive paleta : Type :=
| Secuencia (cs : list string)
| MapaColores (m : list (string * string))
| SinPaleta.

(** The keyword arguments of a [px] call that name no column, and those of
    [fig.update_traces]. *)
Inductive opcion : Type :=
| LineClose (b : bool)          (* line_close= *)
| Template (t : string)         (* template= *)
| Markers (b : bool)            (* markers= *)
| Orientation (o : string)      (* orientation= *)
| Title (t : string)            (* title= *)
| TextTemplate (t : string)     (* update_traces(texttemplate=) *)
| TextPosition (p : string).    (* update_traces(textposition=) *)

(** The column arguments of a [px] call; [None] when the call omits it. *)
Record grafico := mkGrafico {
  tipo : tipo_grafico;
  esquema : list string;          (* columns of the data frame passed *)
  enc_x : option string;          (* x, or r for line_polar *)
  enc_y : option string;          (* y, or theta for line_polar *)
  enc_color : option string;
  enc_size : option string;
  enc_text : option string;
  enc_hover_name : option string;
  enc_hover_data : list string;
  enc_paleta : paleta;
  opciones : list opcion
}.

(** [fig.update_traces(...)]: the figure with the trace options added. *)
Definition update_traces (kw : list opcion) (g : grafico) : grafico :=
  mkGrafico (tipo g) (esquema g) (enc_x g) (enc_y g) (enc_color g) (enc_size g)
    (enc_text g) (enc_hover_name g) (enc_hover_data g) (enc_paleta g) (opciones g ++ kw)%list.

(** A boolean-mask filter keeps the columns. *)
Definition esquema_filtro (cols : list string) : list string := cols.

(** [groupby(keys, as_index=False)[col].sum()] and
    [groupby(key)[col].sum().reset_index()]: the keys, then the column. *)
Definition esquema_groupby (claves : list string) (col : string) : list string :=
  (claves ++ [col])%list.

(** Every column the call references. *)
Definition referencias (g : grafico) : list string :=
  (omap id [enc_x g; enc_y g; enc_color g; enc_size g; enc_text g; enc_hover_name g]
   ++ enc_hover_data g)%list.

Definition columnas_validas (g : grafico) : bool :=
  forallb (isin (esquema g)) (referencias g).

(** Lines 63-66. *)
Definition fig_radar : grafico :=
  mkGrafico LinePolar (esquema_groupby ["Zona"; "Canal"] "Monto de Venta")
    (Some "Monto de Venta") (Some "Zona") (Some "Canal") None None None []
    (Secuencia colores_base) [LineClose true; Template "plotly_dark"].

(** Lines 77-80; [titulo] is the f-string of line 79. *)
Definition fig_linea (titulo : string) : grafico :=
  mkGrafico Line (esquema_groupby ["Mes"; "Producto"] "Monto de Venta")
    (Some "Mes") (Some "Monto de Venta") (Some "Producto") None None None [] SinPaleta
    [Markers true; Title titulo].

(** Lines 92-95. *)
Definition fig_top : grafico :=
  mkGrafico Bar (esquema_groupby ["Asesor"] "Monto de Venta")
    (Some "Monto de Venta") (Some "Asesor") None None (Some "Monto de Venta") None []
    (Secuencia [nth 0 colores_base ""]) [Orientation "h"].

(** Line 96: the bars' labels, two significant digits, outside the bars. *)
Definition fig_top_trazas : grafico :=
  update_traces [TextTemplate "%{text:.2s}"; TextPosition "outside"] fig_top.

(** Lines 101-104. *)
Definition fig_capacitado : grafico :=
  mkGrafico Bar (esquema_groupby ["¿Capacitado?"] "Monto de Venta")
    (Some "¿Capacitado?") (Some "Monto de Venta") (Some "¿Capacitado?") None None None []
    (MapaColores colores_capacitacion) [].

(** Lines 110-114. *)
Definition fig_antiguedad : grafico :=
  mkGrafico Scatter (esquema_filtro esquema_df)
    (Some "Antigüedad del Asesor (meses)") (Some "% Cumplimiento Objetivo")
    (Some "¿Capacitado?") (Some "Monto de Venta") None (Some "Asesor") []
    (MapaColores colores_capacitacion) [].

(** Lines 122-127. *)
Definition fig_publicidad : grafico :=
  mkGrafico Scatter (esquema_filtro esquema_df)
    (Some "Inversión en Publicidad") (Some "% Clientes Nuevos")
    (Some "Participación en Campañas") (Some "Monto de Venta") None None
    ["Edad del Cliente"; "Producto"] (Secuencia colores_base) [].

(** Lines 131-136. *)
Definition fig_edad : grafico :=
  mkGrafico Scatter esquema_df
    (Some "Edad del Cliente") (Some "Monto de Venta") (Some "Producto")
    (Some "% Clientes Nuevos") None None
    ["Inversión en Publicidad"; "Participación en Campañas"] (Secuencia colores_base) [].

(** The seven figures passed to [st.plotly_chart], the line chart with the
    title of the current selection. *)
Definition graficos (titulo : string) : list grafico :=
  [fig_radar; fig_linea titulo; fig_top_trazas; fig_capacitado; fig_antiguedad;
   fig_publicidad; fig_edad].

(** ** Lemmas *)

Lemma columnas_validas_spec g :
  columnas_validas g = true <-> Forall (fun c => c ∈ esquema g) (referencias g).
Proof.
  unfold columnas_validas. rewrite forallb_forall, Forall_forall.
  split; intros H c Hc; apply isin_spec, H; by apply list_elem_of_In.
Qed.

Lemma graficos_columnas_validas titulo : forallb columnas_validas (graficos titulo) = true.
Proof. reflexivity. Qed.

(** ** Properties *)

(** C16.  No chart references a missing column: in each of the seven
    [px] calls every column named for position, colour, size, text or
    hover is a column of the frame it is given (the spec's KeyError-class
    failure cannot happen with the loaded schema). *)
Theorem graficos_sin_keyerror titulo :
  Forall (fun g => Forall (fun c => c ∈ esquema g) (referencias g)) (graficos titulo).
Proof.
  apply Forall_forall. intros g Hg. apply columnas_validas_spec.
  pose proof (graficos_columnas_validas titulo) as Hv. rewrite forallb_forall in Hv.
  by apply Hv, list_elem_of_In.
Qed.
