(* ===== verification/Pagina.v ===== *)
(** * The page a run draws (dashboard.py 11-28, 43-44 and the st.* calls of
      the three views)

    Every Streamlit call of the script appends one element to the page of
    the current run, in the order the script makes the calls.  A run is
    here a computation of the writer monad [pagina_m] (stdpp's [MRet] and
    [MBind]): its value is what the script computes (the session and the
    view of [Sesion.ejecutar]), its log the ordered list of elements.  The
    widgets show the value they return to the script. *)

From S2P Require Import Prelude Tabla Filtros Ventas Asesores Clientes Sesion Graficos.

Local Open Scope string_scope.

(** The Streamlit calls of the script. *)
Inductive elemento : Type :=
| EPageConfig (page_title layout page_icon : string)                    (* st.set_page_config *)
| ETitle (t : string)                                                   (* st.title *)
| EMarkdown (t : string) (unsafe_allow_html : bool)                     (* st.markdown *)
| ESidebarTitle (t : string)                                            (* st.sidebar.title *)
| ERadio (label : string) (opciones : list string) (valor : option string)  (* st.sidebar.radio *)
| EMultiselect (label : string) (opciones default valor : list string)  (* st.multiselect *)
| ESubheader (t : string)                                               (* st.subheader *)
| EColumns (n : nat)                                                    (* st.columns *)
| ESelectbox (columna : nat) (label : string) (opciones : list string)
    (valor : option string)                                             (* colN.selectbox *)
| EPlotlyChart (g : grafico).                                           (* st.plotly_chart *)

(** The writer monad of a run: the elements drawn, and a value. *)
Definition pagina_m (A : Type) : Type := list elemento * A.

#[export] Instance pagina_ret : MRet pagina_m := λ A a, ([], a).
#[export] Instance pagina_bind : MBind pagina_m := λ A B f m,
  let '(w1, a) := m in let '(w2, b) := f a in (w1 ++ w2, b)%list.

(** One [st.*] call. *)
Definition st_call (e : elemento) : pagina_m unit := ([e], tt).

(** The double quote, which the CSS of lines 19-27 contains. *)
Definition comilla : string := String (Ascii.ascii_of_nat 34) EmptyString.

(** The text of lines 13-15. *)
Definition intro : string := "
Este dashboard presenta un analisis de los datos relacionados con el caso Data y Estrategia.
            ".

(** Lines 19-27: [page_bg]. *)
Definition page_bg : string := "
<style>
html, body, [data-testid=" ++ comilla ++ "stAppViewContainer" ++ comilla ++ "] {
    background-color: #e9d8a6;
    color: #001219;
    font-family: 'Segoe UI', sans-serif;
}
</style>
".

(** Lines 11-15. *)
Definition configuracion : pagina_m unit :=
  st_call (EPageConfig "Dashboard" "wide" "📊") ;;
  st_call (ETitle "Dashboard de Caso y Estrategia") ;;
  st_call (EMarkdown intro false).

(** Line 28. *)
Definition estilos : pagina_m unit := st_call (EMarkdown page_bg true).

(** Lines 43-44: the sidebar; the radio returns the chosen option. *)
Definition menu (i : nat) : pagina_m (option string) :=
  st_call (ESidebarTitle "🧭 Menú de análisis") ;;
  let section := radio analisis i in
  st_call (ERadio "Selecciona:" analisis section) ;;
  mret section.

(** Lines 57-81, the calls of view 1 around the tables of [analisis_ventas]. *)
Definition pagina_ventas (e : entradas_ventas) (v : vista_ventas) : pagina_m unit :=
  st_call (EMultiselect "🏙️ Selecciona Zonas:" (zonas_opciones v) (zonas_opciones v) (zonas_select e)) ;;
  st_call (ESubheader "📌 Vista Global: Zonas vs Canales") ;;
  st_call (EPlotlyChart fig_radar) ;;
  st_call (ESubheader "📦 Evolución de ventas por producto") ;;
  st_call (EColumns 2) ;;
  st_call (ESelectbox 0 "Zona:" (zona_opciones v) (zona_elegida v)) ;;
  st_call (ESelectbox 1 "Canal:" (canal_opciones v) (canal_elegido v)) ;;
  st_call (EPlotlyChart (fig_linea (titulo v))).

(** Lines 85-115. *)
Definition pagina_asesores : pagina_m unit :=
  st_call (ESubheader "🏆 Top 10 Asesores por Monto de Venta") ;;
  st_call (EPlotlyChart fig_top_trazas) ;;
  st_call (ESubheader "📚 Comparación ventas: Capacitados vs No Capacitados") ;;
  st_call (EPlotlyChart fig_capacitado) ;;
  st_call (ESubheader "📈 Antigüedad vs Cumplimiento de Objetivos") ;;
  st_call (EPlotlyChart fig_antiguedad).

(** Lines 119-137. *)
Definition pagina_clientes : pagina_m unit :=
  st_call (ESubheader "🎯 % Clientes Nuevos vs Inversión en Publicidad") ;;
  st_call (EPlotlyChart fig_publicidad) ;;
  st_call (ESubheader "👥 Edad del Cliente vs Monto de Venta") ;;
  st_call (EPlotlyChart fig_edad).

(** The if/elif chain of lines 55, 84 and 118, each branch computing its
    tables and drawing its elements. *)
Definition vista_pagina (section : option string) (df : tabla) (e : entradas_ventas) :
    pagina_m salida :=
  match section with
  | Some s =>
      if String.eqb s "Análisis de ventas por categoría" then
        let v := analisis_ventas df e in pagina_ventas e v ;; mret (SalidaVentas v)
      else if String.eqb s "Análisis de Asesores" then
        pagina_asesores ;; mret (SalidaAsesores (analisis_asesores df))
      else if String.eqb s "Análisis de cliente vs publicidad" then
        pagina_clientes ;; mret (SalidaClientes (analisis_clientes df))
      else mret SalidaNinguna
  | None => mret SalidaNinguna
  end.

(** The whole script, lines 11-137, in order: configuration, styles, the
    load and normalisation of the table, the sidebar, the chosen view. *)
Definition ejecutar_pagina (archivo : tabla_cruda) (s : sesion) : pagina_m (sesion * salida) :=
  configuracion ;;
  estilos ;;
  let '(df_crudo, c) := load_data archivo (cache s) in
  let df := normalizar df_crudo in
  section ← menu (indice_seccion (estado s));
  let e := entradas_de df (estado s) in
  o ← vista_pagina section df e;
  mret (mkSesion c (tras_ejecucion (estado s) e o), o).

(** The elements a run draws. *)
Definition pagina (archivo : tabla_cruda) (s : sesion) : list elemento :=
  fst (ejecutar_pagina archivo s).

(** The figures passed to [st.plotly_chart], in order. *)
Definition graficos_de (p : list elemento) : list grafico :=
  omap (fun e => match e with EPlotlyChart g => Some g | _ => None end) p.

Definition es_page_config (e : elemento) : bool :=
  match e with EPageConfig _ _ _ => true | _ => false end.

(** The identity Streamlit derives for a widget without [key=]: its kind,
    its label and its options. *)
Definition id_widget (e : elemento) : option (string * string * list string) :=
  match e with
  | ERadio l os _ => Some ("radio", l, os)
  | EMultiselect l os _ _ => Some ("multiselect", l, os)
  | ESelectbox _ l os _ => Some ("selectbox", l, os)
  | _ => None
  end.

(** ** Lemmas *)

Lemma pagina_bind_fst {A B} (m : pagina_m A) (f : A -> pagina_m B) :
  fst (m ≫= f) = (fst m ++ fst (f (snd m)))%list.
Proof. destruct m as [w a]. simpl. by destruct (f a). Qed.

Lemma pagina_bind_snd {A B} (m : pagina_m A) (f : A -> pagina_m B) :
  snd (m ≫= f) = snd (f (snd m)).
Proof. destruct m as [w a]. simpl. by destruct (f a). Qed.

Lemma pagina_ret_fst {A} (a : A) : fst (mret (M := pagina_m) a) = [].
Proof. done. Qed.

#[export] Hint Rewrite @pagina_bind_fst @pagina_bind_snd @pagina_ret_fst : dash_rw.

(** A run draws the configuration, the styles and the sidebar, then the
    branch of the chosen view. *)
Lemma pagina_forma archivo s :
  let df := normalizar (fst (load_data archivo (cache s))) in
  let section := radio analisis (indice_seccion (estado s)) in
  pagina archivo s =
    ([EPageConfig "Dashboard" "wide" "📊"; ETitle "Dashboard de Caso y Estrategia";
     EMarkdown intro false; EMarkdown page_bg true; ESidebarTitle "🧭 Menú de análisis";
     ERadio "Selecciona:" analisis section] ++
    fst (vista_pagina section df (entradas_de df (estado s))))%list.
Proof.
  unfold pagina, ejecutar_pagina. destruct (load_data archivo (cache s)) as [t c].
  autorewrite with dash_rw. simpl. by rewrite app_nil_r.
Qed.

(** The elements of each branch, for the three options of the radio. *)
Lemma vista_pagina_indice i df e :
  fst (vista_pagina (radio analisis i) df e) =
    match i with
    | 0 => fst (pagina_ventas e (analisis_ventas df e))
    | 1 => fst pagina_asesores
    | 2 => fst pagina_clientes
    | _ => []
    end.
Proof.
  unfold vista_pagina. do 3 (destruct i as [|i];
    [cbn [radio analisis lookup list_lookup]; rewrite ?String.eqb_refl; simpl;
     by rewrite ?app_nil_r|]).
  done.
Qed.

Lemma vista_pagina_sin_config section df e :
  Forall (fun x => es_page_config x = false) (fst (vista_pagina section df e)).
Proof.
  unfold vista_pagina. destruct section as [s|]; [|constructor].
  repeat case_match; simpl; repeat constructor.
Qed.

Lemma graficos_de_app p q : graficos_de (p ++ q) = (graficos_de p ++ graficos_de q)%list.
Proof. apply omap_app. Qed.

(** The charts a run draws, by the index of the radio. *)
Lemma graficos_vista i df e :
  graficos_de (fst (vista_pagina (radio analisis i) df e)) =
    match i with
    | 0 => [fig_radar; fig_linea (titulo (analisis_ventas df e))]
    | 1 => [fig_top_trazas; fig_capacitado; fig_antiguedad]
    | 2 => [fig_publicidad; fig_edad]
    | _ => []
    end.
Proof. rewrite vista_pagina_indice. by do 3 (destruct i as [|i]; [done|]). Qed.

(** A run leaves the memo filled with the table it drew from, so the
    next run without an interaction draws the same page, whatever the file
    then holds. *)
Lemma pagina_ejecutar archivo archivo' s :
  pagina archivo' (fst (ejecutar archivo s)) = pagina archivo s.
Proof.
  rewrite !pagina_forma, ejecutar_indice, ejecutar_cache.
  destruct (indice_seccion (estado s)) as [|i] eqn:Hi.
  - rewrite !vista_pagina_indice. pose proof (ejecutar_entradas_0 archivo s Hi) as He.
    unfold load_data in *. destruct (cache s); cbn [fst from_option id] in *; by rewrite He.
  - rewrite !vista_pagina_indice. unfold load_data. by destruct (cache s).
Qed.

Lemma elem_of_cabecera x section :
  x ∈ [EPageConfig "Dashboard" "wide" "📊"; ETitle "Dashboard de Caso y Estrategia";
       EMarkdown intro false; EMarkdown page_bg true; ESidebarTitle "🧭 Menú de análisis";
       ERadio "Selecciona:" analisis section] ->
  id_widget x = None \/ x = ERadio "Selecciona:" analisis section.
Proof. intros Hx. repeat (apply elem_of_cons in Hx as [->|Hx]; [by auto|]). set_solver. Qed.

(** The widgets of the page of view 1 and the options they show. *)
Lemma widget_en_pagina x archivo s :
  let df := normalizar (fst (load_data archivo (cache s))) in
  let v := analisis_ventas df (entradas_de df (estado s)) in
  x ∈ pagina archivo s -> is_Some (id_widget x) ->
  x = ERadio "Selecciona:" analisis (radio analisis (indice_seccion (estado s))) \/
  (indice_seccion (estado s) = 0 /\
   (x = EMultiselect "🏙️ Selecciona Zonas:" (zonas_opciones v) (zonas_opciones v)
          (zonas_select (entradas_de df (estado s))) \/
    x = ESelectbox 0 "Zona:" (zona_opciones v) (zona_elegida v) \/
    x = ESelectbox 1 "Canal:" (canal_opciones v) (canal_elegido v))).
Proof.
  intros df v Hx Hw. rewrite pagina_forma, elem_of_app in Hx.
  destruct Hx as [Hx|Hx].
  { destruct (elem_of_cabecera _ _ Hx) as [Hn| ->]; [|by left].
    rewrite Hn in Hw. by destruct Hw. }
  right. rewrite vista_pagina_indice in Hx.
  destruct (indice_seccion (estado s)) as [|[|[|?]]]; simpl in Hx;
    repeat (apply elem_of_cons in Hx as [->|Hx]; [simpl in Hw; try (by destruct Hw); by auto 10|]);
    set_solver.
Qed.

(** ** Properties *)

(** C19.  [st.set_page_config] is the first Streamlit call of every run and
    the only one, as Streamlit requires of it: every page starts with the
    configuration of line 11 and no later element configures the page. *)
Theorem set_page_config_primero archivo s :
  exists resto, pagina archivo s = EPageConfig "Dashboard" "wide" "📊" :: resto /\
    Forall (fun x => es_page_config x = false) resto.
Proof.
  rewrite pagina_forma. eexists. split; [reflexivity|].
  repeat constructor. apply vista_pagina_sin_config.
Qed.

(** C20.  The charts of a run, in the order drawn: the radar and the line
    chart (titled with the chosen zone and channel) in view 1, the top-10
    bars (with their trace labels), the training bars and the tenure
    scatter in view 2, the two scatter charts in view 3; none when the
    radio index is out of range. *)
Theorem graficos_pagina archivo s :
  let df := normalizar (fst (load_data archivo (cache s))) in
  graficos_de (pagina archivo s) =
    match indice_seccion (estado s) with
    | 0 => [fig_radar; fig_linea (titulo (analisis_ventas df (entradas_de df (estado s))))]
    | 1 => [fig_top_trazas; fig_capacitado; fig_antiguedad]
    | 2 => [fig_publicidad; fig_edad]
    | _ => []
    end.
Proof. intros df. rewrite pagina_forma, graficos_de_app, graficos_vista. done. Qed.

(** C21.  No two widgets of a run share their identity (kind, label and
    options), so Streamlit never raises its duplicate-widget error on this
    page: the radio, the multiselect and the two selectboxes are told
    apart by their labels, whatever options the data gives them. *)
Theorem widgets_distintos archivo s :
  NoDup (omap id_widget (pagina archivo s)).
Proof.
  rewrite pagina_forma, omap_app, vista_pagina_indice.
  destruct (indice_seccion (estado s)) as [|[|[|?]]]; simpl;
    repeat constructor; set_solver.
Qed.
