(* ===== verification/Interaccion.v ===== *)
(** * The user acts on the page drawn

    [Sesion.paso_sesion] lets an interaction pick any zones and any
    selectbox index.  In the browser the user can only pick what the page
    last drawn offers: one of the radio's options, options of the
    multiselect, an index among a selectbox's options.  [permitido] is that
    constraint, read off the elements of [Pagina], and [alcanzable_ui] the
    pairs (session, page shown) reached by the first run and interactions
    on the page shown.  Streamlit's frontend enforces the constraint; it is
    modelled from its documented widget semantics. *)

From S2P Require Import Prelude Tabla Filtros Ventas Sesion Graficos Pagina.

Local Open Scope string_scope.

(** The interactions the elements of page [p] offer. *)
Definition permitido (p : list elemento) (ev : evento) : bool :=
  match ev with
  | ElegirSeccion i =>
      existsb (fun x => match x with ERadio _ os _ => Nat.ltb i (length os) | _ => false end) p
  | ElegirZonas zs =>
      existsb (fun x => match x with EMultiselect _ os _ _ => forallb (isin os) zs | _ => false end) p
  | ElegirZona i =>
      existsb (fun x => match x with ESelectbox 0 _ os _ => Nat.ltb i (length os) | _ => false end) p
  | ElegirCanal i =>
      existsb (fun x => match x with ESelectbox 1 _ os _ => Nat.ltb i (length os) | _ => false end) p
  end.

(** The session states and the pages shown, from the first run on. *)
Inductive alcanzable_ui : sesion -> list elemento -> Prop :=
| ui_inicio archivo :
    alcanzable_ui (fst (ejecutar archivo sesion_inicial)) (pagina archivo sesion_inicial)
| ui_paso s p ev archivo :
    alcanzable_ui s p -> permitido p ev = true ->
    alcanzable_ui (fst (ejecutar archivo (con_evento ev s))) (pagina archivo (con_evento ev s)).

(** The table the memo holds, normalised: what every later run draws from. *)
Definition tabla_de (s : sesion) : tabla := normalizar (from_option id [] (cache s)).

(** The tables and widgets of view 1 in state [s]. *)
Definition vista_de (s : sesion) : vista_ventas :=
  analisis_ventas (tabla_de s) (entradas_de (tabla_de s) (estado s)).

(** The zones stored in the multiselect are zones of the table. *)
Definition zonas_validas (s : sesion) : Prop :=
  forall zs, zonas (estado s) = Some zs -> zs ⊆ zonas_disponibles (tabla_de s).

(** ** Lemmas *)

Lemma existsb_elem {A} (f : A -> bool) (l : list A) :
  existsb f l = true -> exists x, x ∈ l /\ f x = true.
Proof. rewrite existsb_exists. intros (x & Hx & Hf). exists x. by rewrite list_elem_of_In. Qed.

(** Once the memo holds a table, the widgets of a page are those of the
    view of [tabla_de]. *)
Lemma widget_de_estado x archivo s :
  is_Some (cache s) -> x ∈ pagina archivo s -> is_Some (id_widget x) ->
  x = ERadio "Selecciona:" analisis (radio analisis (indice_seccion (estado s))) \/
  (x = EMultiselect "🏙️ Selecciona Zonas:" (zonas_opciones (vista_de s)) (zonas_opciones (vista_de s))
         (zonas_select (entradas_de (tabla_de s) (estado s))) \/
   x = ESelectbox 0 "Zona:" (zona_opciones (vista_de s)) (zona_elegida (vista_de s)) \/
   x = ESelectbox 1 "Canal:" (canal_opciones (vista_de s)) (canal_elegido (vista_de s))).
Proof.
  intros [t Hc] Hx Hw. unfold vista_de, tabla_de. rewrite Hc. simpl.
  destruct (widget_en_pagina x archivo s Hx Hw) as [?|[_ ?]]; [by left|right].
  by rewrite Hc in H.
Qed.

(** After a run the memo is filled and the page shown is the page of the
    new state. *)
Lemma alcanzable_ui_inv s p :
  alcanzable_ui s p -> is_Some (cache s) /\ (forall archivo, pagina archivo s = p).
Proof.
  induction 1; (split; [rewrite ejecutar_cache; by eexists|intros a; apply pagina_ejecutar]).
Qed.

Lemma tabla_de_ejecutar archivo ev s :
  is_Some (cache s) -> tabla_de (fst (ejecutar archivo (con_evento ev s))) = tabla_de s.
Proof. intros [t Hc]. unfold tabla_de. rewrite ejecutar_cache. simpl. by rewrite Hc. Qed.

Lemma ejecutar_zonas archivo s :
  zonas (estado (fst (ejecutar archivo s))) = zonas (estado s) \/
  zonas (estado (fst (ejecutar archivo s))) = None.
Proof. unfold ejecutar. destruct (load_data archivo (cache s)). apply tras_ejecucion_zonas. Qed.

(** The multiselect only offers zones of the table, a run keeps the
    table, and a run that does not draw the multiselect drops its value. *)
Lemma alcanzable_ui_zonas s p : alcanzable_ui s p -> zonas_validas s.
Proof.
  induction 1 as [archivo|s p ev archivo Hsp IH Hp]; intros zs Hzs.
  - by destruct (ejecutar_zonas archivo sesion_inicial) as [E|E]; rewrite E in Hzs.
  - destruct (alcanzable_ui_inv s p Hsp) as (Hc & Hpag).
    rewrite tabla_de_ejecutar by done.
    destruct (ejecutar_zonas archivo (con_evento ev s)) as [E|E]; rewrite E in Hzs; [|done].
    destruct ev as [i|zs'|i|i]; try exact (IH zs Hzs). simpl in Hp, Hzs. injection Hzs as <-.
    apply existsb_elem in Hp as (x & Hx & Hf). rewrite <- (Hpag archivo) in Hx.
    destruct (widget_de_estado x archivo s) as [->|[->|[->| ->]]]; try done;
      [destruct x; try discriminate; by eexists|].
    intros z Hz. rewrite forallb_forall in Hf.
    apply isin_spec, Hf, list_elem_of_In, Hz.
Qed.

Lemma zonas_select_validas s :
  zonas_validas s -> zonas_select (entradas_de (tabla_de s) (estado s)) ⊆ zonas_disponibles (tabla_de s).
Proof. intros Hv. unfold entradas_de. simpl. destruct (zonas (estado s)) eqn:E; [by apply Hv|done]. Qed.

(** ** Properties *)

(** C22.  The drill-down follows the multiselect: on every page a user
    reaches, the zone selectbox offers exactly the zones selected in the
    multiselect, because the multiselect only offers zones of the table. *)
Theorem selectbox_zona_seleccion s p :
  alcanzable_ui s p ->
  forall z, z ∈ zona_opciones (vista_de s) <-> z ∈ zonas_select (entradas_de (tabla_de s) (estado s)).
Proof.
  intros Hsp z. pose proof (zonas_select_validas s (alcanzable_ui_zonas s p Hsp)) as Hv.
  change (z ∈ zonas_disponibles (filtrar_zonas (zonas_select (entradas_de (tabla_de s) (estado s))) (tabla_de s))
          <-> z ∈ zonas_select (entradas_de (tabla_de s) (estado s))).
  rewrite zonas_disponibles_filtrar. set_solver.
Qed.

(** ** Witnesses *)

(** A file with two zones; the user keeps only "Sur" on the first page. *)
Definition archivo_3 : tabla_cruda :=
  [mkRegistro "Norte" "Online" "Enero" "P" "Ana" (Num 10) "Sí" NaN NaN NaN NaN "Sí" NaN;
   mkRegistro "Sur" "Tienda" "Mayo" "Q" "Luis" (Num 7) "No" NaN NaN NaN NaN "No" NaN]%string%Z.

Definition sesion_3 : sesion := fst (ejecutar archivo_3 sesion_inicial).
Definition pagina_3 : list elemento := pagina archivo_3 sesion_inicial.
Definition sesion_sur : sesion := fst (ejecutar archivo_3 (con_evento (ElegirZonas ["Sur"]) sesion_3)).
Definition pagina_sur : list elemento := pagina archivo_3 (con_evento (ElegirZonas ["Sur"]) sesion_3).

Lemma selectbox_zona_seleccion_witness :
  alcanzable_ui sesion_sur pagina_sur /\
  forall z, z ∈ zona_opciones (vista_de sesion_sur) <->
    z ∈ zonas_select (entradas_de (tabla_de sesion_sur) (estado sesion_sur)).
Proof.
  assert (H : alcanzable_ui sesion_sur pagina_sur).
  { apply (ui_paso sesion_3 pagina_3); [apply ui_inicio|vm_compute; reflexivity]. }
  split; [exact H|]. exact (selectbox_zona_seleccion _ _ H).
Defined.
