(* ===== verification/Carga.v ===== *)
(** * Loading failures and missing columns (dashboard.py 5-7, 33-38 and the
      column accesses of the three views)

    [Sesion] and [Pagina] model the runs in which the parquet file is
    readable and has every column.  Here the file may be unreadable
    ([pd.read_parquet] raises, spec: LoadError) and may lack columns
    (schema drift: pandas raises KeyError at the first access to a missing
    column, plotly express raises ValueError when an argument names a
    column its frame lacks, or when a [size=] column holds a negative or
    NaN value).  A run is a computation of the monad [ejec]:
    the elements drawn so far, and either the exception that stopped the
    script or its result.  Streamlit keeps the elements drawn before the
    exception and shows the exception below them.  [@st.cache_data] stores
    only returned values: a raising [load_data] leaves the memo empty.
    Rows keep the record type of [Tabla]; the column list of the file says
    which columns exist, and a missing column is never read because the
    access raises first. *)

From S2P Require Import Prelude Tabla Filtros Ventas Asesores Clientes Sesion Graficos Pagina.

From Stdlib Require Import Btauto.

Local Open Scope string_scope.

(** The exceptions a run can raise. *)
Inductive excepcion : Type :=
| LoadError                  (* pd.read_parquet: missing or unreadable file *)
| KeyError (col : string)    (* pandas: df[col], groupby(col) on a missing column *)
| ValueError.                (* plotly express: a missing column, or an invalid marker size *)

(** The data file: unreadable, or a parquet table with its columns. *)
Inductive archivo : Type :=
| Ilegible
| Parquet (columnas : list string) (filas : tabla_cruda).

(** A run that may raise: the elements drawn, then the exception or the
    result. *)
Definition ejec (A : Type) : Type := list elemento * (excepcion + A).

#[export] Instance ejec_ret : MRet ejec := λ A a, ([], inr a).
#[export] Instance ejec_bind : MBind ejec := λ A B f m,
  match m with
  | (w1, inl x) => (w1, inl x)
  | (w1, inr a) => let '(w2, r) := f a in (w1 ++ w2, r)%list
  end.

Definition lanzar {A} (x : excepcion) : ejec A := ([], inl x).

(** A computation that cannot raise. *)
Definition levantar {A} (m : pagina_m A) : ejec A := (fst m, inr (snd m)).

Definition dibujar (e : elemento) : ejec unit := ([e], inr tt).

(** The first of [cs] that is not a column. *)
Definition columna_ausente (columnas cs : list string) : option string :=
  List.find (fun c => negb (isin columnas c)) cs.

(** [df[c]] for each [c] of [cs] in turn, or [groupby(cs)]. *)
Definition acceder (columnas cs : list string) : ejec unit :=
  match columna_ausente columnas cs with
  | Some c => lanzar (KeyError c)
  | None => mret tt
  end.

(** A marker size plotly accepts: a number in [0, inf); plotly's size
    validator rejects a negative value and NaN (which fails [0 <= x]). *)
Definition tamano_valido (c : option celda) : bool :=
  match c with
  | Some (CNumero x) => no_negativo x
  | _ => false
  end.

(** Every row of the frame gives the [size] column a valid marker size. *)
Definition tamanos_ok (filas : tabla) (g : grafico) : bool :=
  match enc_size g with
  | Some c => forallb (fun r => tamano_valido (columna c r)) filas
  | None => true
  end.

(** A [px] call on the rows [filas] of a frame with the file's columns:
    plotly express first looks the arguments up among the columns, then
    validates the marker sizes; either failure is a ValueError. *)
Definition px (columnas : list string) (filas : tabla) (g : grafico) : ejec unit :=
  if forallb (isin columnas) (referencias g) then
    (if tamanos_ok filas g then mret tt else lanzar ValueError)
  else lanzar ValueError.

(** Lines 56-81, with the column accesses where the script makes them. *)
Definition pagina_ventas_e (columnas : list string) (df : tabla) (e : entradas_ventas) : ejec salida :=
  let v := analisis_ventas df e in
  acceder columnas ["Zona"] ;;                                            (* 56 *)
  dibujar (EMultiselect "🏙️ Selecciona Zonas:" (zonas_opciones v) (zonas_opciones v) (zonas_select e)) ;;
  acceder columnas ["Zona"] ;;                                            (* 58 *)
  dibujar (ESubheader "📌 Vista Global: Zonas vs Canales") ;;
  acceder columnas ["Zona"; "Canal"; "Monto de Venta"] ;;                 (* 61 *)
  dibujar (EPlotlyChart fig_radar) ;;
  dibujar (ESubheader "📦 Evolución de ventas por producto") ;;
  dibujar (EColumns 2) ;;
  acceder columnas ["Zona"] ;;                                            (* 71 *)
  dibujar (ESelectbox 0 "Zona:" (zona_opciones v) (zona_elegida v)) ;;
  acceder columnas ["Canal"] ;;                                           (* 72 *)
  dibujar (ESelectbox 1 "Canal:" (canal_opciones v) (canal_elegido v)) ;;
  acceder columnas ["Zona"; "Canal"] ;;                                   (* 74 *)
  acceder columnas ["Mes"; "Producto"; "Monto de Venta"] ;;               (* 75 *)
  dibujar (EPlotlyChart (fig_linea (titulo v))) ;;
  mret (SalidaVentas v).

(** Lines 85-115. *)
Definition pagina_asesores_e (columnas : list string) (df : tabla) : ejec salida :=
  dibujar (ESubheader "🏆 Top 10 Asesores por Monto de Venta") ;;
  acceder columnas ["Asesor"; "Monto de Venta"] ;;                        (* 86-87 *)
  dibujar (EPlotlyChart fig_top_trazas) ;;
  dibujar (ESubheader "📚 Comparación ventas: Capacitados vs No Capacitados") ;;
  acceder columnas ["¿Capacitado?"; "Monto de Venta"] ;;                  (* 100 *)
  dibujar (EPlotlyChart fig_capacitado) ;;
  acceder columnas ["Monto de Venta"] ;;                                  (* 107 *)
  dibujar (ESubheader "📈 Antigüedad vs Cumplimiento de Objetivos") ;;
  px columnas (filtrar_monto_no_negativo df) fig_antiguedad ;;            (* 107, 110-114 *)
  dibujar (EPlotlyChart fig_antiguedad) ;;
  mret (SalidaAsesores (analisis_asesores df)).

(** Lines 119-137. *)
Definition pagina_clientes_e (columnas : list string) (df : tabla) : ejec salida :=
  dibujar (ESubheader "🎯 % Clientes Nuevos vs Inversión en Publicidad") ;;
  acceder columnas ["Monto de Venta"] ;;                                  (* 121 *)
  px columnas (filtrar_monto_no_negativo df) fig_publicidad ;;            (* 121, 122-127 *)
  dibujar (EPlotlyChart fig_publicidad) ;;
  dibujar (ESubheader "👥 Edad del Cliente vs Monto de Venta") ;;
  px columnas df fig_edad ;;                                              (* 131-136 *)
  dibujar (EPlotlyChart fig_edad) ;;
  mret (SalidaClientes (analisis_clientes df)).

(** The if/elif chain of lines 55, 84 and 118. *)
Definition vista_e (columnas : list string) (section : option string) (df : tabla)
    (e : entradas_ventas) : ejec salida :=
  match section with
  | Some s =>
      if String.eqb s "Análisis de ventas por categoría" then pagina_ventas_e columnas df e
      else if String.eqb s "Análisis de Asesores" then pagina_asesores_e columnas df
      else if String.eqb s "Análisis de cliente vs publicidad" then pagina_clientes_e columnas df
      else mret SalidaNinguna
  | None => mret SalidaNinguna
  end.

(** The session with the memo of the loaded frame (its columns and rows). *)
Record sesion_e := mkSesionE {
  memo : option (list string * tabla_cruda);
  estado_e : widgets
}.

(** [@st.cache_data def load_data(): return pd.read_parquet(...)]: a hit
    returns the memo; a miss reads the file and stores the frame, unless
    the read raises, which stores nothing. *)
Definition load_data_e (f : archivo) (m : option (list string * tabla_cruda)) :
    (excepcion + (list string * tabla_cruda)) * option (list string * tabla_cruda) :=
  match m with
  | Some x => (inr x, m)
  | None =>
      match f with
      | Parquet columnas filas => (inr (columnas, filas), Some (columnas, filas))
      | Ilegible => (inl LoadError, None)
      end
  end.

(** The widgets after a run: cleaned up as in [Sesion.tras_ejecucion]
    when the run completes, left as they were when it raises. *)
Definition estado_tras (r : excepcion + (list string * tabla_cruda)) (w : widgets)
    (res : excepcion + salida) : widgets :=
  match r, res with
  | inr (_, crudo), inr o => tras_ejecucion w (entradas_de (normalizar crudo) w) o
  | _, _ => w
  end.

(** One run of the script on the file [f]: the next session and the run. *)
Definition ejecutar_e (f : archivo) (s : sesion_e) : sesion_e * ejec salida :=
  let '(r, m) := load_data_e f (memo s) in
  let corrida :=
   levantar configuracion ;;                                              (* 11-15 *)
   levantar estilos ;;                                                    (* 28 *)
   x ← (([], r) : ejec (list string * tabla_cruda));                      (* 33 *)
   let '(columnas, crudo) := x in
   acceder columnas ["Mes"] ;;                                            (* 34-38 *)
   let df := normalizar crudo in
   section ← levantar (menu (indice_seccion (estado_e s)));               (* 43-44 *)
   vista_e columnas section df (entradas_de df (estado_e s)) in
  (mkSesionE m (estado_tras r (estado_e s) (snd corrida)), corrida).

(** The columns a run of view [i] reads: [df['Mes']] at line 34, then
    the group-by keys, sums, masks and plotly arguments of the view body
    (lines 55-83, 84-117, 118-136).  The hover columns add none that the
    view's other chart does not already read. *)
Definition columnas_vista (i : nat) : list string :=
  match i with
  | 0 => ["Mes"; "Zona"; "Canal"; "Monto de Venta"; "Producto"]
  | 1 => ["Mes"; "Asesor"; "Monto de Venta"; "¿Capacitado?"; "Antigüedad del Asesor (meses)";
          "% Cumplimiento Objetivo"]
  | 2 => ["Mes"; "Monto de Venta"; "Inversión en Publicidad"; "% Clientes Nuevos";
          "Participación en Campañas"; "Edad del Cliente"; "Producto"]
  | _ => ["Mes"]
  end.

(** Whether a run ends without an exception. *)
Definition exito {A} (m : ejec A) : bool :=
  match snd m with inr _ => true | inl _ => false end.

(** ** Lemmas *)

Lemma exito_bind {A B} (m : ejec A) (f : A -> ejec B) :
  exito (m ≫= f) = match snd m with inr a => exito (f a) | inl _ => false end.
Proof. destruct m as [w [x|a]]; simpl; [done|]. by destruct (f a). Qed.

Lemma columna_ausente_forallb columnas cs :
  match columna_ausente columnas cs with Some _ => false | None => true end =
  forallb (isin columnas) cs.
Proof. induction cs as [|c cs IH]; simpl; [done|]. by destruct (isin columnas c). Qed.

Lemma exito_acceder {B} columnas cs (k : unit -> ejec B) :
  exito (acceder columnas cs ≫= k) = forallb (isin columnas) cs && exito (k tt).
Proof.
  rewrite exito_bind, <- columna_ausente_forallb. unfold acceder.
  by destruct (columna_ausente columnas cs).
Qed.

Lemma exito_px {B} columnas filas g (k : unit -> ejec B) :
  exito (px columnas filas g ≫= k) =
    forallb (isin columnas) (referencias g) && tamanos_ok filas g && exito (k tt).
Proof. rewrite exito_bind. unfold px. by destruct (forallb _ _), (tamanos_ok _ _). Qed.

Lemma exito_dibujar {B} e (k : unit -> ejec B) : exito (dibujar e ≫= k) = exito (k tt).
Proof. by rewrite exito_bind. Qed.

Lemma exito_levantar {A B} (m : pagina_m A) (k : A -> ejec B) :
  exito (levantar m ≫= k) = exito (k (snd m)).
Proof. by rewrite exito_bind. Qed.

Lemma exito_mret {A} (a : A) : exito (mret (M := ejec) a) = true.
Proof. done. Qed.

#[export] Hint Rewrite @exito_acceder @exito_px @exito_dibujar @exito_levantar @exito_mret : dash_rw.

Lemma forallb_isin columnas cs : forallb (isin columnas) cs = true <-> cs ⊆ columnas.
Proof.
  rewrite forallb_forall. split; intros H c Hc.
  - apply isin_spec, H, list_elem_of_In, Hc.
  - apply isin_spec, H, list_elem_of_In, Hc.
Qed.

Lemma iff_of_eq (b1 b2 : bool) : b1 = b2 -> (b1 = true <-> b2 = true).
Proof. by intros ->. Qed.

(** An access to present columns goes on; an access to a missing one
    raises KeyError with its name. *)
Lemma acceder_presentes columnas cs : cs ⊆ columnas -> acceder columnas cs = mret tt.
Proof.
  intros Hcs. unfold acceder. apply forallb_isin in Hcs.
  rewrite <- columna_ausente_forallb in Hcs. by destruct (columna_ausente columnas cs).
Qed.

Lemma acceder_ausente columnas c cs :
  c ∉ columnas -> acceder columnas (c :: cs) = lanzar (KeyError c).
Proof.
  intros Hc. unfold acceder, columna_ausente. simpl.
  destruct (isin columnas c) eqn:Hi; [|done]. by apply isin_spec in Hi.
Qed.

Lemma menu_snd i : snd (menu i) = radio analisis i.
Proof. done. Qed.

Lemma px_presentes columnas filas g :
  referencias g ⊆ columnas -> tamanos_ok filas g = true -> px columnas filas g = mret tt.
Proof. unfold px. intros Hg Ht. apply forallb_isin in Hg. by rewrite Hg, Ht. Qed.

Lemma px_tamanos columnas filas g :
  referencias g ⊆ columnas -> tamanos_ok filas g = false -> px columnas filas g = lanzar ValueError.
Proof. unfold px. intros Hg Ht. apply forallb_isin in Hg. by rewrite Hg, Ht. Qed.

(** The [>= 0] mask of lines 107 and 121 makes every amount a valid
    marker size. *)
Lemma tamanos_ok_filtrado df g :
  enc_size g = Some "Monto de Venta" -> tamanos_ok (filtrar_monto_no_negativo df) g = true.
Proof.
  intros Hs. unfold tamanos_ok. rewrite Hs. apply forallb_forall. intros r Hr.
  apply list_elem_of_In in Hr. unfold filtrar_monto_no_negativo in Hr.
  apply elem_of_filter_bool in Hr as [_ Hr]. exact Hr.
Qed.

(** Line 133 sizes the unfiltered table by '% Clientes Nuevos'. *)
Lemma tamanos_ok_edad df :
  tamanos_ok df fig_edad = forallb (fun r => no_negativo (clientes_nuevos r)) df.
Proof. induction df as [|r df IH]; [done|]. cbn [forallb]. by rewrite <- IH. Qed.

Lemma forallb_clientes_normalizar df :
  forallb (fun r => no_negativo (clientes_nuevos r)) (normalizar df) =
  forallb (fun r => no_negativo (clientes_nuevos r)) df.
Proof. induction df as [|r df IH]; [done|]. cbn [forallb normalizar map]. by rewrite <- IH. Qed.

Lemma subseteq_via columnas cs ds :
  ds ⊆ columnas -> forallb (isin ds) cs = true -> cs ⊆ columnas.
Proof. intros Hc Hcs. apply forallb_isin in Hcs. set_solver. Qed.

(** The branch of the radio index, as in [Pagina.vista_pagina_indice]. *)
Lemma vista_e_indice columnas i df e :
  vista_e columnas (radio analisis i) df e =
    match i with
    | 0 => pagina_ventas_e columnas df e
    | 1 => pagina_asesores_e columnas df
    | 2 => pagina_clientes_e columnas df
    | _ => mret SalidaNinguna
    end.
Proof.
  unfold vista_e. do 3 (destruct i as [|i];
    [cbn [radio analisis lookup list_lookup]; by rewrite ?String.eqb_refl|]).
  done.
Qed.

(** The first four elements of every run: configuration, title, intro and
    CSS, drawn before the file is read. *)
Definition cabecera : list elemento :=
  [EPageConfig "Dashboard" "wide" "📊"; ETitle "Dashboard de Caso y Estrategia";
   EMarkdown intro false; EMarkdown page_bg true].

(** ** Properties *)

(** C23.  An unreadable file with an empty memo: the run draws the
    configuration, title, intro and CSS, then stops with LoadError (no
    sidebar, no view); the memo stays empty because [@st.cache_data] does
    not store exceptions, so the next run reads the file again and, once
    the file is readable, loads and memoises it. *)
Theorem load_error_reintenta s :
  memo s = None ->
  snd (ejecutar_e Ilegible s) = (cabecera, inl LoadError) /\
  memo (fst (ejecutar_e Ilegible s)) = None /\
  forall columnas filas,
    memo (fst (ejecutar_e (Parquet columnas filas) (fst (ejecutar_e Ilegible s)))) =
      Some (columnas, filas).
Proof. intros Hm. unfold ejecutar_e. rewrite Hm. done. Qed.

(** C24.  When a run raises: once the frame is loaded (from the file or
    the memo), the run ends without exception exactly when every column
    the chosen view reads is a column of the frame and, in view 3, every
    '% Clientes Nuevos' is a non-negative number: line 133 sizes the
    unfiltered table by that column and plotly rejects a negative or NaN
    marker size, while the amount-sized charts get the [>= 0]-filtered
    rows. *)
Theorem ejecutar_e_exito f s columnas filas m :
  load_data_e f (memo s) = (inr (columnas, filas), m) ->
  exito (snd (ejecutar_e f s)) =
    forallb (isin columnas) (columnas_vista (indice_seccion (estado_e s))) &&
    (negb (Nat.eqb (indice_seccion (estado_e s)) 2) ||
     forallb (fun r => no_negativo (clientes_nuevos r)) filas).
Proof.
  intros Hl. unfold ejecutar_e. rewrite Hl. cbn [snd].
  rewrite !exito_levantar, exito_bind. cbn [snd].
  rewrite exito_acceder, exito_levantar, menu_snd, vista_e_indice.
  destruct (indice_seccion (estado_e s)) as [|[|[|i]]]; unfold columnas_vista;
    unfold pagina_ventas_e, pagina_asesores_e, pagina_clientes_e; cbv zeta;
    autorewrite with dash_rw;
    rewrite ?tamanos_ok_filtrado by done; rewrite ?tamanos_ok_edad, ?forallb_clientes_normalizar;
    cbn [referencias omap id fig_antiguedad fig_publicidad fig_edad enc_x enc_y enc_color
      enc_size enc_text enc_hover_name enc_hover_data app list_omap forallb Nat.eqb negb orb];
    btauto.
Qed.

(** C25.  A missing column stops the run after a partial page (the spec
    asks for no partial rendering): with [Asesor] missing, the advisors
    view draws the header, the sidebar and its first subheader, then
    [df.groupby('Asesor')] raises KeyError; Streamlit keeps those elements
    above the exception. *)
Theorem renderizado_parcial f s columnas filas m :
  load_data_e f (memo s) = (inr (columnas, filas), m) ->
  "Mes" ∈ columnas -> "Asesor" ∉ columnas -> indice_seccion (estado_e s) = 1 ->
  snd (ejecutar_e f s) =
    (cabecera ++ [ESidebarTitle "🧭 Menú de análisis";
                  ERadio "Selecciona:" analisis (Some "Análisis de Asesores");
                  ESubheader "🏆 Top 10 Asesores por Monto de Venta"], inl (KeyError "Asesor"))%list.
Proof.
  intros Hl Hmes Has Hi. unfold ejecutar_e. rewrite Hl, Hi.
  cbn -[vista_e acceder normalizar entradas_de radio intro page_bg].
  rewrite acceder_presentes by set_solver.
  cbn -[vista_e normalizar entradas_de radio intro page_bg]. rewrite (vista_e_indice _ 1).
  unfold pagina_asesores_e. rewrite (acceder_ausente columnas "Asesor") by done. reflexivity.
Qed.

(** C26.  Line 133 fails on the data: with every column present, a single
    row whose '% Clientes Nuevos' is negative or NaN makes the customers
    view draw its first chart and second subheader and then stop with
    plotly's ValueError at line 131, since that chart is sized by the
    column on the unfiltered table. *)
Theorem renderizado_parcial_clientes f s columnas filas m :
  load_data_e f (memo s) = (inr (columnas, filas), m) ->
  columnas_vista 2 ⊆ columnas -> indice_seccion (estado_e s) = 2 ->
  forallb (fun r => no_negativo (clientes_nuevos r)) filas = false ->
  snd (ejecutar_e f s) =
    (cabecera ++ [ESidebarTitle "🧭 Menú de análisis";
                  ERadio "Selecciona:" analisis (Some "Análisis de cliente vs publicidad");
                  ESubheader "🎯 % Clientes Nuevos vs Inversión en Publicidad";
                  EPlotlyChart fig_publicidad;
                  ESubheader "👥 Edad del Cliente vs Monto de Venta"], inl ValueError)%list.
Proof.
  intros Hl Hc Hi Hn. unfold ejecutar_e. rewrite Hl, Hi.
  cbn -[vista_e acceder normalizar entradas_de radio intro page_bg].
  rewrite acceder_presentes by (eapply subseteq_via; [exact Hc|reflexivity]).
  cbn -[vista_e normalizar entradas_de radio intro page_bg]. rewrite (vista_e_indice _ 2).
  unfold pagina_clientes_e.
  rewrite acceder_presentes by (eapply subseteq_via; [exact Hc|reflexivity]).
  rewrite (px_presentes _ _ fig_publicidad) by
    (first [eapply subseteq_via; [exact Hc|reflexivity] | by apply tamanos_ok_filtrado]).
  rewrite (px_tamanos _ _ fig_edad) by
    (first [eapply subseteq_via; [exact Hc|reflexivity] | by rewrite tamanos_ok_edad, forallb_clientes_normalizar]).
  reflexivity.
Qed.

(** ** Witnesses *)

Definition sesion_e_inicial : sesion_e := mkSesionE None (mkWidgets 0 None None None).

(** The advisors view selected, nothing loaded yet. *)
Definition sesion_e_asesores : sesion_e := mkSesionE None (mkWidgets 1 None None None).

(** The customers view selected, nothing loaded yet. *)
Definition sesion_e_clientes : sesion_e := mkSesionE None (mkWidgets 2 None None None).

(** A file whose table lost the advisor column. *)
Definition columnas_sin_asesor : list string :=
  List.filter (fun c => negb (String.eqb c "Asesor")) esquema_df.

Lemma load_error_reintenta_witness :
  memo sesion_e_inicial = None /\
  snd (ejecutar_e Ilegible sesion_e_inicial) = (cabecera, inl LoadError) /\
  memo (fst (ejecutar_e Ilegible sesion_e_inicial)) = None /\
  forall columnas filas,
    memo (fst (ejecutar_e (Parquet columnas filas) (fst (ejecutar_e Ilegible sesion_e_inicial)))) =
      Some (columnas, filas).
Proof.
  assert (H : memo sesion_e_inicial = None) by reflexivity.
  split; [exact H|]. exact (load_error_reintenta _ H).
Defined.

Lemma ejecutar_e_exito_witness :
  load_data_e (Parquet esquema_df archivo_1) (memo sesion_e_clientes) =
    (inr (esquema_df, archivo_1), Some (esquema_df, archivo_1)) /\
  exito (snd (ejecutar_e (Parquet esquema_df archivo_1) sesion_e_clientes)) =
    forallb (isin esquema_df) (columnas_vista (indice_seccion (estado_e sesion_e_clientes))) &&
    (negb (Nat.eqb (indice_seccion (estado_e sesion_e_clientes)) 2) ||
     forallb (fun r => no_negativo (clientes_nuevos r)) archivo_1).
Proof.
  assert (H : load_data_e (Parquet esquema_df archivo_1) (memo sesion_e_clientes) =
    (inr (esquema_df, archivo_1), Some (esquema_df, archivo_1))) by reflexivity.
  split; [exact H|]. exact (ejecutar_e_exito _ _ _ _ _ H).
Defined.

Lemma renderizado_parcial_witness :
  load_data_e (Parquet columnas_sin_asesor archivo_1) (memo sesion_e_asesores) =
    (inr (columnas_sin_asesor, archivo_1), Some (columnas_sin_asesor, archivo_1)) /\
  "Mes" ∈ columnas_sin_asesor /\ "Asesor" ∉ columnas_sin_asesor /\
  indice_seccion (estado_e sesion_e_asesores) = 1 /\
  snd (ejecutar_e (Parquet columnas_sin_asesor archivo_1) sesion_e_asesores) =
    (cabecera ++ [ESidebarTitle "🧭 Menú de análisis";
                  ERadio "Selecciona:" analisis (Some "Análisis de Asesores");
                  ESubheader "🏆 Top 10 Asesores por Monto de Venta"], inl (KeyError "Asesor"))%list.
Proof.
  assert (Hl : load_data_e (Parquet columnas_sin_asesor archivo_1) (memo sesion_e_asesores) =
    (inr (columnas_sin_asesor, archivo_1), Some (columnas_sin_asesor, archivo_1))) by reflexivity.
  assert (Hm : "Mes" ∈ columnas_sin_asesor) by (apply (bool_decide_eq_true_1 _); vm_compute; reflexivity).
  assert (Ha : "Asesor" ∉ columnas_sin_asesor) by (apply (bool_decide_eq_true_1 _); vm_compute; reflexivity).
  assert (Hi : indice_seccion (estado_e sesion_e_asesores) = 1) by reflexivity.
  split_and!; [exact Hl|exact Hm|exact Ha|exact Hi|]. exact (renderizado_parcial _ _ _ _ _ Hl Hm Ha Hi).
Defined.

Lemma renderizado_parcial_clientes_witness :
  load_data_e (Parquet esquema_df archivo_1) (memo sesion_e_clientes) =
    (inr (esquema_df, archivo_1), Some (esquema_df, archivo_1)) /\
  columnas_vista 2 ⊆ esquema_df /\ indice_seccion (estado_e sesion_e_clientes) = 2 /\
  forallb (fun r => no_negativo (clientes_nuevos r)) archivo_1 = false /\
  snd (ejecutar_e (Parquet esquema_df archivo_1) sesion_e_clientes) =
    (cabecera ++ [ESidebarTitle "🧭 Menú de análisis";
                  ERadio "Selecciona:" analisis (Some "Análisis de cliente vs publicidad");
                  ESubheader "🎯 % Clientes Nuevos vs Inversión en Publicidad";
                  EPlotlyChart fig_publicidad;
                  ESubheader "👥 Edad del Cliente vs Monto de Venta"], inl ValueError)%list.
Proof.
  assert (Hl : load_data_e (Parquet esquema_df archivo_1) (memo sesion_e_clientes) =
    (inr (esquema_df, archivo_1), Some (esquema_df, archivo_1))) by reflexivity.
  assert (Hc : columnas_vista 2 ⊆ esquema_df) by (apply forallb_isin; vm_compute; reflexivity).
  assert (Hi : indice_seccion (estado_e sesion_e_clientes) = 2) by reflexivity.
  assert (Hn : forallb (fun r => no_negativo (clientes_nuevos r)) archivo_1 = false) by reflexivity.
  split; [exact Hl|split; [exact Hc|split; [exact Hi|split; [exact Hn|]]]].
  exact (renderizado_parcial_clientes _ _ _ _ _ Hl Hc Hi Hn).
Defined.
